(** * Gastronomy Heaven API: the catalog loader and the query handlers

    A shallow embedding of [database.js] (the catalog loader) and of the
    Express request handlers of the server module, with the properties of
    the query contract stated and proved over it.

    Conventions of the embedding.
    - A JavaScript number that holds a decimal quantity (price, rating, the
      result of [parseFloat] or of a division) is a value of [number]: an
      exact rational, one of the two infinities, or NaN.  Arithmetic on the
      finite values is exact (binary64 rounding and the sign of zero are
      not modelled).
    - A JavaScript number that the data model types as an integer
      (identifier, spiciness level, review count) is a [Z]; the result of
      [parseInt] is an [option Z], where [None] is NaN.
    - A JavaScript string is a [string]; case mapping covers the ASCII
      letters, the other characters are left as they are.
    - A value of [req.query] or [req.params] is a string when present
      ([Some s]) and [undefined] when absent ([None]). *)

From Stdlib Require Import List String Ascii Bool ZArith QArith Qabs Qround Lia Lqa
  Sorted Permutation.
Import ListNotations.

Open Scope string_scope.
Open Scope Z_scope.

(* ================================================================ *)
(** ** JavaScript numbers *)

Module JsNumber.

Inductive number : Type :=
| NaN
| NegInf
| Fin (q : Q)
| PosInf.

Definition of_Z (z : Z) : number := Fin (inject_Z z).

(** [a - b] *)
Definition sub (a b : number) : number :=
  match a, b with
  | NaN, _ | _, NaN => NaN
  | PosInf, PosInf | NegInf, NegInf => NaN
  | PosInf, _ | _, NegInf => PosInf
  | NegInf, _ | _, PosInf => NegInf
  | Fin x, Fin y => Fin (x - y)
  end.

(** [a + b] *)
Definition add (a b : number) : number :=
  match a, b with
  | NaN, _ | _, NaN => NaN
  | PosInf, NegInf | NegInf, PosInf => NaN
  | PosInf, _ | _, PosInf => PosInf
  | NegInf, _ | _, NegInf => NegInf
  | Fin x, Fin y => Fin (x + y)
  end.

Definition Qsign (x : Q) : comparison := (x ?= 0)%Q.

(** [a / b]; a zero divisor is taken as [+0]. *)
Definition div (a b : number) : number :=
  match a, b with
  | NaN, _ | _, NaN => NaN
  | (PosInf | NegInf), (PosInf | NegInf) => NaN
  | PosInf, Fin y => match Qsign y with Lt => NegInf | _ => PosInf end
  | NegInf, Fin y => match Qsign y with Lt => PosInf | _ => NegInf end
  | Fin _, (PosInf | NegInf) => Fin 0
  | Fin x, Fin y =>
      match Qsign y with
      | Eq => match Qsign x with Eq => NaN | Gt => PosInf | Lt => NegInf end
      | _ => Fin (x / y)
      end
  end.

(** [a <= b]; every comparison with NaN is false. *)
Definition leb (a b : number) : bool :=
  match a, b with
  | NaN, _ | _, NaN => false
  | NegInf, _ | _, PosInf => true
  | _, NegInf | PosInf, _ => false
  | Fin x, Fin y => Qle_bool x y
  end.

(** [a >= b] *)
Definition geb (a b : number) : bool := leb b a.

(** [a > b] *)
Definition gtb (a b : number) : bool :=
  match a, b with
  | NaN, _ | _, NaN => false
  | NegInf, _ | _, PosInf => false
  | _, NegInf | PosInf, _ => true
  | Fin x, Fin y => negb (Qle_bool x y)
  end.

Definition isNaN (a : number) : bool :=
  match a with NaN => true | _ => false end.

(** [a === b] on numbers: NaN equals nothing, itself included. *)
Definition strictEq (a b : number) : bool :=
  match a, b with
  | Fin x, Fin y => Qeq_bool x y
  | PosInf, PosInf | NegInf, NegInf => true
  | _, _ => false
  end.

(** [a >= b] as a relation; NaN is related to nothing. *)
Definition num_ge (a b : number) : Prop := geb a b = true.

(** A number other than NaN and [-Infinity]: what a rating that passed a
    finite threshold can be. *)
Definition orderable (a : number) : Prop :=
  match a with
  | Fin _ | PosInf => True
  | NaN | NegInf => False
  end.

End JsNumber.
Import JsNumber.

(* ================================================================ *)
(** ** JavaScript strings *)

Module JsString.

Definition is_upper (c : ascii) : bool :=
  let n := nat_of_ascii c in (65 <=? n)%nat && (n <=? 90)%nat.

Definition lower_char (c : ascii) : ascii :=
  if is_upper c then ascii_of_nat (nat_of_ascii c + 32) else c.

(** [s.toLowerCase()] *)
Fixpoint toLowerCase (s : string) : string :=
  match s with
  | EmptyString => EmptyString
  | String c r => String (lower_char c) (toLowerCase r)
  end.

(** [s.startsWith(t)], the test [includes] makes at each position. *)
Fixpoint startsWith (s t : string) {struct t} : bool :=
  match t, s with
  | EmptyString, _ => true
  | String _ _, EmptyString => false
  | String b t', String a s' => Ascii.eqb a b && startsWith s' t'
  end.

(** [s.includes(t)]: [t] occurs in [s] at some position. *)
Fixpoint includes (s t : string) : bool :=
  startsWith s t ||
  match s with
  | EmptyString => false
  | String _ s' => includes s' t
  end.

(** Truthiness of a string: only the empty string is falsy. *)
Definition truthy (s : string) : bool :=
  match s with EmptyString => false | _ => true end.

(** [t] is a substring of [s]. *)
Definition substring_of (t s : string) : Prop :=
  exists pre suf, s = pre ++ t ++ suf.

(** [t] is a substring of [s] up to letter case. *)
Definition ci_substring_of (t s : string) : Prop :=
  substring_of (toLowerCase t) (toLowerCase s).

End JsString.
Import JsString.

(* ================================================================ *)
(** ** The data model *)

Module Product.
Record t : Type := mk {
  id : Z;
  name : string;
  description : string;
  category : string;
  price : number;
  available : bool;
  spicyLevel : Z;
  rating : number;
  reviews : Z;
  ingredients : list string
}.
End Product.
Abbreviation Product := Product.t.

(* ================================================================ *)
(** ** Parsing of request values: [parseInt] and [parseFloat] *)

Module JsParse.

(** The ASCII members of the white space that both parsers skip. *)
Definition is_space (c : ascii) : bool :=
  let n := nat_of_ascii c in
  ((9 <=? n)%nat && (n <=? 13)%nat) || (n =? 32)%nat.

Fixpoint trimStart (s : string) : string :=
  match s with
  | String c r => if is_space c then trimStart r else s
  | EmptyString => s
  end.

(** Value of a character as a digit of the radix, if it is one. *)
Definition digit_of (radix : Z) (c : ascii) : option Z :=
  let n := Z.of_nat (nat_of_ascii c) in
  let v := if (48 <=? n) && (n <=? 57) then Some (n - 48)
           else if (97 <=? n) && (n <=? 122) then Some (n - 87)
           else if (65 <=? n) && (n <=? 90) then Some (n - 55)
           else None in
  match v with
  | Some d => if d <? radix then Some d else None
  | None => None
  end.

(** The longest prefix of digits: the number of digits read, their value
    on top of [acc], and the rest of the string. *)
Fixpoint digits (radix : Z) (s : string) (len : nat) (acc : Z) : nat * Z * string :=
  match s with
  | String c r =>
      match digit_of radix c with
      | Some d => digits radix r (S len) (acc * radix + d)
      | None => (len, acc, s)
      end
  | EmptyString => (len, acc, s)
  end.

(** A leading sign: its factor and the rest. *)
Definition sign_of (s : string) : Z * string :=
  match s with
  | String c r =>
      if Ascii.eqb c "-" then (-1, r)
      else if Ascii.eqb c "+" then (1, r)
      else (1, s)
  | EmptyString => (1, s)
  end.

(** [s.slice(2)] *)
Definition drop2 (s : string) : string :=
  match s with
  | String _ (String _ r) => r
  | _ => EmptyString
  end.

(** [parseInt(s)], no radix given: [None] is NaN. *)
Definition parseInt (s : string) : option Z :=
  let '(sign, s1) := sign_of (trimStart s) in
  let '(radix, s2) :=
    if startsWith s1 "0x" || startsWith s1 "0X" then (16, drop2 s1)
    else (10, s1) in
  match digits radix s2 0 0 with
  | (O, _, _) => None
  | (_, mathInt, _) => Some (sign * mathInt)
  end.

(** The exponent part [e[+-]ddd], when it is complete; 0 otherwise. *)
Definition exponent_of (s : string) : Z :=
  match s with
  | String c r =>
      if Ascii.eqb c "e" || Ascii.eqb c "E" then
        let '(sign, r1) := sign_of r in
        match digits 10 r1 0 0 with
        | (O, _, _) => 0
        | (_, e, _) => sign * e
        end
      else 0
  | EmptyString => 0
  end.

(** [parseFloat(s)]: the longest prefix that is a decimal literal. *)
Definition parseFloat (s : string) : number :=
  let '(sign, s1) := sign_of (trimStart s) in
  if startsWith s1 "Infinity" then (if sign <? 0 then NegInf else PosInf)
  else
    let '(ilen, ival, s2) := digits 10 s1 0 0 in
    let '(flen, mant, s3) :=
      match s2 with
      | String c r =>
          if Ascii.eqb c "." then digits 10 r 0 ival else (O, ival, s2)
      | EmptyString => (O, ival, s2)
      end in
    match ilen, flen with
    | O, O => NaN
    | _, _ =>
        Fin (inject_Z (sign * mant)
             * Qpower (inject_Z 10) (exponent_of s3 - Z.of_nat flen))
    end.

(** A suffix at which [parseInt] stops reading a decimal number: empty, or
    starting with a character that is neither a digit nor the [x] of a
    hexadecimal prefix. *)
Definition stopsNumber (suffix : string) : Prop :=
  match suffix with
  | EmptyString => True
  | String c _ =>
      digit_of 10 c = None /\ Ascii.eqb c "x" = false /\ Ascii.eqb c "X" = false
  end.

End JsParse.
Import JsParse.

(* ================================================================ *)
(** ** [GET /api/products] *)

(** The six recognised fields of [req.query]. *)
Module Query.
Record t : Type := mk {
  category : option string;
  minPrice : option string;
  maxPrice : option string;
  available : option string;
  spicyLevel : option string;
  search : option string
}.
Definition empty : t := mk None None None None None None.
End Query.

(** The body [{ success, count, data }] of a product listing. *)
Record ProductsResponse : Type := mkProductsResponse {
  success : bool;
  count : nat;
  data : list Product
}.

(** [if (v) { xs = xs.filter(keep v) }]: skipped when [v] is [undefined]
    or the empty string. *)
Definition filterIfTruthy (v : option string) (keep : string -> Product -> bool)
    (xs : list Product) : list Product :=
  match v with
  | Some s => if truthy s then filter (keep s) xs else xs
  | None => xs
  end.

(** [if (v !== undefined) { xs = xs.filter(keep v) }] *)
Definition filterIfDefined (v : option string) (keep : string -> Product -> bool)
    (xs : list Product) : list Product :=
  match v with
  | Some s => filter (keep s) xs
  | None => xs
  end.

(** The predicates of the six [filter] calls, in the order of the handler. *)
Definition byCategory (category : string) (product : Product) : bool :=
  String.eqb (toLowerCase (Product.category product)) (toLowerCase category).

Definition byMinPrice (minPrice : string) (product : Product) : bool :=
  geb (Product.price product) (parseFloat minPrice).

Definition byMaxPrice (maxPrice : string) (product : Product) : bool :=
  leb (Product.price product) (parseFloat maxPrice).

Definition byAvailable (available : string) (product : Product) : bool :=
  Bool.eqb (Product.available product) (String.eqb available "true").

Definition bySpicyLevel (spicyLevel : string) (product : Product) : bool :=
  match parseInt spicyLevel with
  | Some n => Product.spicyLevel product <=? n
  | None => false
  end.

Definition bySearch (search : string) (product : Product) : bool :=
  let searchTerm := toLowerCase search in
  includes (toLowerCase (Product.name product)) searchTerm
  || includes (toLowerCase (Product.description product)) searchTerm
  || existsb (fun ingredient => includes (toLowerCase ingredient) searchTerm)
       (Product.ingredients product).

Definition listProducts (products : list Product) (query : Query.t)
    : ProductsResponse :=
  let filteredProducts := products in
  let filteredProducts :=
    filterIfTruthy (Query.category query) byCategory filteredProducts in
  let filteredProducts :=
    filterIfTruthy (Query.minPrice query) byMinPrice filteredProducts in
  let filteredProducts :=
    filterIfTruthy (Query.maxPrice query) byMaxPrice filteredProducts in
  let filteredProducts :=
    filterIfDefined (Query.available query) byAvailable filteredProducts in
  let filteredProducts :=
    filterIfDefined (Query.spicyLevel query) bySpicyLevel filteredProducts in
  let filteredProducts :=
    filterIfTruthy (Query.search query) bySearch filteredProducts in
  {| success := true;
     count := List.length filteredProducts;
     data := filteredProducts |}.

(** What a guarded filter asks of a product: nothing when it is skipped. *)
Definition asksIfTruthy (v : option string) (keep : string -> Product -> bool)
    (product : Product) : bool :=
  match v with
  | Some s => if truthy s then keep s product else true
  | None => true
  end.

Definition asksIfDefined (v : option string) (keep : string -> Product -> bool)
    (product : Product) : bool :=
  match v with
  | Some s => keep s product
  | None => true
  end.

(** The conjunction of what the six filters of a query ask. *)
Definition matchesQuery (q : Query.t) (product : Product) : bool :=
  asksIfTruthy (Query.category q) byCategory product
  && asksIfTruthy (Query.minPrice q) byMinPrice product
  && asksIfTruthy (Query.maxPrice q) byMaxPrice product
  && asksIfDefined (Query.available q) byAvailable product
  && asksIfDefined (Query.spicyLevel q) bySpicyLevel product
  && asksIfTruthy (Query.search q) bySearch product.

(** The queries that supply one filter only. *)
Definition onlyCategory (q : Query.t) : Query.t :=
  Query.mk (Query.category q) None None None None None.
Definition onlyMinPrice (q : Query.t) : Query.t :=
  Query.mk None (Query.minPrice q) None None None None.
Definition onlyMaxPrice (q : Query.t) : Query.t :=
  Query.mk None None (Query.maxPrice q) None None None.
Definition onlyAvailable (q : Query.t) : Query.t :=
  Query.mk None None None (Query.available q) None None.
Definition onlySpicyLevel (q : Query.t) : Query.t :=
  Query.mk None None None None (Query.spicyLevel q) None.
Definition onlySearch (q : Query.t) : Query.t :=
  Query.mk None None None None None (Query.search q).

(* ================================================================ *)
(** ** [GET /api/products/:id] *)

Inductive ProductResponse : Type :=
| ProductFound (data : Product)          (* 200, success: true *)
| ProductNotFound (message : string).    (* 404, success: false *)

(** [p.id === productId] *)
Definition idIs (productId : option Z) (p : Product) : bool :=
  match productId with
  | Some n => Product.id p =? n
  | None => false
  end.

Definition getProductById (products : list Product) (idParam : string)
    : ProductResponse :=
  let productId := parseInt idParam in
  match find (idIs productId) products with
  | None => ProductNotFound "Producto no encontrado"
  | Some product => ProductFound product
  end.

(* ================================================================ *)
(** ** [GET /api/products/category/:category] *)

Inductive CategoryResponse : Type :=
| CategoryFound (category : string) (count : nat) (data : list Product)
| CategoryNotFound (message : string).

Definition listProductsByCategory (products : list Product) (category : string)
    : CategoryResponse :=
  let categoryProducts := filter (byCategory category) products in
  if (List.length categoryProducts =? 0)%nat
  then CategoryNotFound "No se encontraron productos en esta categoría"
  else CategoryFound category (List.length categoryProducts) categoryProducts.

(* ================================================================ *)
(** ** [GET /api/categories] *)

Record CategoryCount : Type := mkCategoryCount {
  cc_name : string;
  cc_count : nat
}.

Definition listCategories (products : list Product) (categories : list string)
    : list CategoryCount :=
  map (fun category =>
         let count :=
           List.length
             (filter (fun product =>
                        String.eqb (Product.category product) category)
                     products) in
         {| cc_name := category; cc_count := count |})
      categories.

(* ================================================================ *)
(** ** [GET /api/products/featured] *)

Module JsArray.
Section Sort.
Context {A : Type}.
Variable comparefn : A -> A -> number.

(** The comparison [sort] makes: a NaN from [comparefn] counts as 0. *)
Definition sortCompare (x y : A) : number :=
  let v := comparefn x y in
  if isNaN v then Fin 0 else v.

(** [x] goes in front of the first element it does not have to follow. *)
Fixpoint insert (x : A) (l : list A) : list A :=
  match l with
  | [] => [x]
  | y :: l' =>
      if gtb (sortCompare x y) (Fin 0) then y :: insert x l' else x :: l
  end.

(** [xs.sort(comparefn)]: a stable sort, here by insertion from the
    right, so that equal elements keep their order. *)
Definition sort (xs : list A) : list A := fold_right insert [] xs.
End Sort.

(** [xs.slice(0, n)] *)
Definition slice0 {A : Type} (n : nat) (xs : list A) : list A := firstn n xs.
End JsArray.

(** The threshold [4.5]. *)
Definition featuredRating : number := Fin (9 # 2).

Definition getFeaturedProducts (products : list Product) : ProductsResponse :=
  let featuredProducts :=
    JsArray.slice0 6
      (JsArray.sort (fun a b => sub (Product.rating b) (Product.rating a))
         (filter (fun product => geb (Product.rating product) featuredRating)
            products)) in
  {| success := true;
     count := List.length featuredProducts;
     data := featuredProducts |}.

(* ================================================================ *)
(** ** [GET /api/stats] *)

Module JsFormat.

Definition digit_char (d : Z) : ascii := ascii_of_nat (48 + Z.to_nat d).

Fixpoint decimal_aux (fuel : nat) (n : Z) (acc : string) : string :=
  match fuel with
  | O => acc
  | S fuel' =>
      let acc' := String (digit_char (n mod 10)) acc in
      if n <? 10 then acc' else decimal_aux fuel' (n / 10) acc'
  end.

(** The decimal digits of a natural number, most significant first. *)
Definition decimal (n : Z) : string :=
  decimal_aux (S (Z.to_nat (Z.log2 n))) n "".

(** The decimal rendering of an integer. *)
Definition decimalString (z : Z) : string :=
  if z <? 0 then String "-" (decimal (- z)) else decimal z.

Fixpoint zeros (n : nat) : string :=
  match n with
  | O => ""
  | S n' => String "0" (zeros n')
  end.

(** [x.toFixed(f)].  A NaN or an infinity is rendered by name.  A finite
    value below [10^21] in magnitude is rounded to [f] decimals, halves
    away from zero, and written with exactly [f] digits after the point.
    From [10^21] on the result is the exponent notation of the binary64
    value, which the exact model does not determine: [None]. *)
Definition toFixed (x : number) (f : nat) : option string :=
  match x with
  | NaN => Some "NaN"
  | PosInf => Some "Infinity"
  | NegInf => Some "-Infinity"
  | Fin q =>
      let s := if Qle_bool 0 q then "" else "-" in
      let x := Qabs q in
      if Qle_bool (inject_Z (10 ^ 21)) x then None
      else
        let n := Qfloor (x * inject_Z (10 ^ Z.of_nat f) + (1 # 2)) in
        let m := decimal n in
        let m :=
          if (f =? 0)%nat then m
          else
            let k := String.length m in
            let m := if (k <=? f)%nat then zeros (f + 1 - k) ++ m else m in
            let k := String.length m in
            substring 0 (k - f) m ++ "." ++ substring (k - f) f m in
        Some (s ++ m)
  end.

End JsFormat.
Import JsFormat.

Record Stats : Type := mkStats {
  totalProducts : nat;
  totalCategories : nat;
  averagePrice : option string;
  averageRating : option string;
  totalReviews : Z;
  availableProducts : nat;
  vegetarianOptions : nat;
  spicyOptions : nat
}.

Definition getStats (products : list Product) (categories : list string)
    : Stats :=
  let n := of_Z (Z.of_nat (List.length products)) in
  {| totalProducts := List.length products;
     totalCategories := List.length categories;
     averagePrice :=
       toFixed
         (div (fold_left (fun sum product => add sum (Product.price product))
                 products (Fin 0)) n) 2;
     averageRating :=
       toFixed
         (div (fold_left (fun sum product => add sum (Product.rating product))
                 products (Fin 0)) n) 1;
     totalReviews :=
       fold_left (fun sum product => sum + Product.reviews product) products 0;
     availableProducts :=
       List.length (filter (fun product => Product.available product) products);
     vegetarianOptions :=
       List.length
         (filter (fun product =>
                    String.eqb (Product.category product) "Vegetariano")
            products);
     spicyOptions :=
       List.length
         (filter (fun product => 0 <? Product.spicyLevel product) products) |}.

(* ================================================================ *)
(** ** [database.js]: the catalog loader *)

(** Computations that may throw and that write to the console. *)
Module Eff.

Inductive outcome (E A : Type) : Type :=
| Return (a : A)
| Throw (e : E).
Arguments Return {E A} a.
Arguments Throw {E A} e.

(** The lines written to the console, then how the computation ended. *)
Definition M (E A : Type) : Type := list string * outcome E A.

Definition ret {E A} (a : A) : M E A := ([], Return a).

Definition bind {E A B} (m : M E A) (k : A -> M E B) : M E B :=
  match m with
  | (out, Return a) => let '(out', r) := k a in ((out ++ out')%list, r)
  | (out, Throw e) => (out, Throw e)
  end.

(** [try { m } catch (error) { handler error }] *)
Definition tryCatch {E A} (m : M E A) (handler : E -> M E A) : M E A :=
  match m with
  | (out, Throw e) => let '(out', r) := handler e in ((out ++ out')%list, r)
  | (out, Return a) => (out, Return a)
  end.

(** [console.error(line)] *)
Definition consoleError {E} (line : string) : M E unit := ([line], Return tt).

End Eff.

(** A parsed JSON document. *)
#[local] Set Warnings "-register-all".
Inductive Json : Type :=
| JNull
| JBool (b : bool)
| JNumber (n : number)
| JString (s : string)
| JArray (items : list Json)
| JObject (fields : list (string * Json)).

(** [{ products: [], categories: [], restaurantInfo: {} }] *)
Definition emptyCatalog : Json :=
  JObject [("products", JArray []);
           ("categories", JArray []);
           ("restaurantInfo", JObject [])].

Section Loader.
(** The thrown values. *)
Variable Error : Type.
(** How an error is shown on the console. *)
Variable showError : Error -> string.
(** The directory of the module and [path.join]. *)
Variable dirname : string.
Variable pathJoin : string -> string -> string.
(** [fs.readFileSync(path, 'utf8')] on the file system of the process and
    [JSON.parse]: both return or throw. *)
Variable readFileSync : string -> Eff.outcome Error string.
Variable JSONparse : string -> Eff.outcome Error Json.

Definition loadData : Eff.M Error Json :=
  Eff.tryCatch
    (let dataPath := pathJoin dirname "data.json" in
     Eff.bind ([], readFileSync dataPath) (fun rawData =>
     ([], JSONparse rawData)))
    (fun error =>
       Eff.bind
         (Eff.consoleError ("Error al cargar datos: " ++ showError error))
         (fun _ => Eff.ret emptyCatalog)).
End Loader.

(** *** The exports of the module

    [const data = loadData(); const products = data.products; ...]: the
    three collections are read off whatever [loadData] returned. *)

Module Database.

(** The first field of that name; a JavaScript object has each key once. *)
Fixpoint lookup (key : string) (fields : list (string * Json)) : option Json :=
  match fields with
  | [] => None
  | (k, v) :: fields' => if String.eqb k key then Some v else lookup key fields'
  end.

(** [module.exports]: a collection that the document lacks is
    [undefined], here [None]. *)
Record Exports : Type := mkExports {
  products : option Json;
  categories : option Json;
  restaurantInfo : option Json
}.

Section Init.
Variable Error : Type.
Variable showError : Error -> string.
(** The TypeError of a property read on [null]. *)
Variable typeError : Error.
Variable dirname : string.
Variable pathJoin : string -> string -> string.
Variable readFileSync : string -> Eff.outcome Error string.
Variable JSONparse : string -> Eff.outcome Error Json.

(** [v.key], for a key that no prototype defines: it throws on [null],
    is the field on an object that has it, and [undefined] otherwise. *)
Definition getProp (v : Json) (key : string) : Eff.M Error (option Json) :=
  match v with
  | JNull => ([], Eff.Throw typeError)
  | JObject fields => Eff.ret (lookup key fields)
  | JBool _ | JNumber _ | JString _ | JArray _ => Eff.ret None
  end.

Definition init : Eff.M Error Exports :=
  Eff.bind (loadData Error showError dirname pathJoin readFileSync JSONparse)
    (fun data =>
  Eff.bind (getProp data "products") (fun products =>
  Eff.bind (getProp data "categories") (fun categories =>
  Eff.bind (getProp data "restaurantInfo") (fun restaurantInfo =>
  Eff.ret {| products := products;
             categories := categories;
             restaurantInfo := restaurantInfo |})))).
End Init.

End Database.

(* ================================================================ *)
(** ** The route table

    The [app.get] registrations in the order of the source.  A request goes
    to the first route whose pattern matches its path; a [:name] segment
    matches any one non-empty path segment, a literal segment matches
    without regard to letter case (the router's default).  A path is the
    list of its non-empty segments. *)

Module Router.

Inductive Segment : Type :=
| Lit (s : string)
| Param (name : string).

Inductive Handler : Type :=
| Root
| ListProducts
| GetProductById
| ListProductsByCategory
| ListCategories
| GetRestaurantInfo
| GetFeaturedProducts
| GetStats.

Fixpoint matchPath (pattern : list Segment) (path : list string)
    : option (list (string * string)) :=
  match pattern, path with
  | [], [] => Some []
  | Lit s :: pattern', x :: path' =>
      if String.eqb (toLowerCase s) (toLowerCase x)
      then matchPath pattern' path' else None
  | Param name :: pattern', x :: path' =>
      if truthy x then
        match matchPath pattern' path' with
        | Some params => Some ((name, x) :: params)
        | None => None
        end
      else None
  | _, _ => None
  end.

Definition routes : list (list Segment * Handler) :=
  [ ([], Root);
    ([Lit "api"; Lit "products"], ListProducts);
    ([Lit "api"; Lit "products"; Param "id"], GetProductById);
    ([Lit "api"; Lit "products"; Lit "category"; Param "category"],
       ListProductsByCategory);
    ([Lit "api"; Lit "categories"], ListCategories);
    ([Lit "api"; Lit "restaurant"], GetRestaurantInfo);
    ([Lit "api"; Lit "products"; Lit "featured"], GetFeaturedProducts);
    ([Lit "api"; Lit "stats"], GetStats) ].

Fixpoint dispatchIn (table : list (list Segment * Handler))
    (path : list string) : option (Handler * list (string * string)) :=
  match table with
  | [] => None
  | (pattern, handler) :: table' =>
      match matchPath pattern path with
      | Some params => Some (handler, params)
      | None => dispatchIn table' path
      end
  end.

Definition dispatch (path : list string)
    : option (Handler * list (string * string)) :=
  dispatchIn routes path.

End Router.

(* ================================================================ *)
(** ** The two-product catalog of the specification's scenario

    The scenario leaves name, description and ingredients out; they are
    taken empty here. *)

Definition specProduct1 : Product :=
  {| Product.id := 1; Product.name := ""; Product.description := "";
     Product.category := "Vegetarian"; Product.price := Fin 10;
     Product.available := true; Product.spicyLevel := 0;
     Product.rating := Fin (48 # 10); Product.reviews := 5;
     Product.ingredients := [] |}.

Definition specProduct2 : Product :=
  {| Product.id := 2; Product.name := ""; Product.description := "";
     Product.category := "Meat"; Product.price := Fin 20;
     Product.available := false; Product.spicyLevel := 3;
     Product.rating := Fin (42 # 10); Product.reviews := 2;
     Product.ingredients := [] |}.

Definition specCatalog : list Product := [specProduct1; specProduct2].

Definition specCategories : list string := ["Vegetarian"; "Meat"].

(* ================================================================ *)
(** * Properties *)

(** ** Strings *)

Section StringFacts.

Lemma startsWith_spec (s t : string) :
  startsWith s t = true <-> exists suf, s = t ++ suf.
Proof.
  revert s; induction t as [|b t IH]; intros s; simpl.
  - split; [intros _; now exists s | reflexivity].
  - destruct s as [|a s].
    + split; [discriminate | intros [suf H]; discriminate].
    + rewrite andb_true_iff, Ascii.eqb_eq, IH. split.
      * intros [-> [suf ->]]. now exists suf.
      * intros [suf H]. injection H as -> ->. split; [reflexivity | now exists suf].
Qed.

Lemma includes_spec (s t : string) :
  includes s t = true <-> substring_of t s.
Proof.
  unfold substring_of. induction s as [|a s IH].
  - simpl. rewrite orb_false_r, startsWith_spec. split.
    + intros [suf H]. now exists "", suf.
    + intros [pre [suf H]]. destruct pre; [now exists suf | discriminate].
  - cbn [includes]. rewrite orb_true_iff, startsWith_spec, IH. split.
    + intros [[suf H] | [pre [suf H]]].
      * now exists "", suf.
      * exists (String a pre), suf. simpl. now rewrite H.
    + intros [pre [suf H]]. destruct pre as [|c pre].
      * left. now exists suf.
      * right. injection H as _ H. now exists pre, suf.
Qed.

Lemma substring_of_empty (s : string) : substring_of "" s.
Proof. now exists "", s. Qed.

Lemma truthy_false (s : string) : truthy s = false -> s = "".
Proof. destruct s; [reflexivity | discriminate]. Qed.

Lemma truthy_true (s : string) : s <> "" -> truthy s = true.
Proof. destruct s; [congruence | reflexivity]. Qed.

End StringFacts.

(** ** [listProducts] *)

Section ListProductsFacts.
Variable products : list Product.

Lemma bySearch_spec (s : string) (p : Product) :
  bySearch s p = true <->
  ci_substring_of s (Product.name p)
  \/ ci_substring_of s (Product.description p)
  \/ Exists (ci_substring_of s) (Product.ingredients p).
Proof.
  unfold bySearch, ci_substring_of.
  rewrite !orb_true_iff, !includes_spec, existsb_exists, Exists_exists.
  split.
  - intros [[H | H] | [x [Hx H]]]; auto.
    right; right. exists x. now rewrite <- includes_spec.
  - intros [H | [H | [x [Hx H]]]]; auto.
    right. exists x. now rewrite includes_spec.
Qed.

(** What the two kinds of guarded filter keep. *)
Lemma filterIfTruthy_In v keep xs (p : Product) :
  In p (filterIfTruthy v keep xs) <->
  In p xs /\ match v with
             | Some s => truthy s = false \/ keep s p = true
             | None => True
             end.
Proof.
  unfold filterIfTruthy. destruct v as [s|]; [|tauto].
  destruct (truthy s) eqn:E.
  - rewrite filter_In. intuition congruence.
  - tauto.
Qed.

Lemma filterIfDefined_In v keep xs (p : Product) :
  In p (filterIfDefined v keep xs) <->
  In p xs /\ match v with
             | Some s => keep s p = true
             | None => True
             end.
Proof.
  unfold filterIfDefined. destruct v as [s|]; [|tauto].
  now rewrite filter_In.
Qed.

Lemma listProducts_In (q : Query.t) (p : Product) :
  In p (data (listProducts products q)) <->
  In p (filterIfTruthy (Query.search q) bySearch
         (filterIfDefined (Query.spicyLevel q) bySpicyLevel
           (filterIfDefined (Query.available q) byAvailable
             (filterIfTruthy (Query.maxPrice q) byMaxPrice
               (filterIfTruthy (Query.minPrice q) byMinPrice
                 (filterIfTruthy (Query.category q) byCategory products)))))).
Proof. reflexivity. Qed.

End ListProductsFacts.

(** C4. For every catalog and every search term [s], a product is in the
    result of [listProducts] called with the search filter alone exactly
    when it is in the catalog and [s] is, up to letter case, a substring of
    its name, of its description, or of one of its ingredients. *)
Theorem listProducts_search_iff (products : list Product) (s : string)
    (p : Product) :
  In p (data (listProducts products
                (Query.mk None None None None None (Some s)))) <->
  In p products /\
  (ci_substring_of s (Product.name p)
   \/ ci_substring_of s (Product.description p)
   \/ Exists (ci_substring_of s) (Product.ingredients p)).
Proof.
  rewrite listProducts_In. cbn [Query.category Query.minPrice Query.maxPrice
    Query.available Query.spicyLevel Query.search filterIfTruthy filterIfDefined].
  destruct (truthy s) eqn:E.
  - now rewrite filter_In, bySearch_spec.
  - apply truthy_false in E. subst s. split; [|tauto].
    intros H. split; [assumption|]. left. apply substring_of_empty.
Qed.

(** C5. For every catalog and every query, the products [listProducts]
    returns are those returned for each of its six filters supplied alone;
    a single-filter query whose filter is not supplied returns the whole
    collection; the query without filters returns the collection as it is;
    and the count reported is the length of the data. *)
Theorem listProducts_intersection (products : list Product) (q : Query.t) :
  (forall p,
     In p (data (listProducts products q)) <->
     In p (data (listProducts products (onlyCategory q))) /\
     In p (data (listProducts products (onlyMinPrice q))) /\
     In p (data (listProducts products (onlyMaxPrice q))) /\
     In p (data (listProducts products (onlyAvailable q))) /\
     In p (data (listProducts products (onlySpicyLevel q))) /\
     In p (data (listProducts products (onlySearch q)))) /\
  ((Query.category q = None ->
      data (listProducts products (onlyCategory q)) = products) /\
   (Query.minPrice q = None ->
      data (listProducts products (onlyMinPrice q)) = products) /\
   (Query.maxPrice q = None ->
      data (listProducts products (onlyMaxPrice q)) = products) /\
   (Query.available q = None ->
      data (listProducts products (onlyAvailable q)) = products) /\
   (Query.spicyLevel q = None ->
      data (listProducts products (onlySpicyLevel q)) = products) /\
   (Query.search q = None ->
      data (listProducts products (onlySearch q)) = products)) /\
  listProducts products Query.empty =
    {| success := true; count := List.length products; data := products |} /\
  count (listProducts products q) = List.length (data (listProducts products q)).
Proof.
  split; [|split; [|split; reflexivity]].
  - intros p. rewrite !listProducts_In.
    destruct q as [c mn mx av sp se].
    cbn [onlyCategory onlyMinPrice onlyMaxPrice onlyAvailable onlySpicyLevel
         onlySearch Query.category Query.minPrice Query.maxPrice
         Query.available Query.spicyLevel Query.search].
    repeat (rewrite filterIfTruthy_In || rewrite filterIfDefined_In).
    cbv beta iota. tauto.
  - destruct q as [c mn mx av sp se]; cbn.
    repeat split; intros ->; reflexivity.
Qed.

Lemma listProducts_intersection_witness :
  In specProduct1
     (data (listProducts specCatalog
              (Query.mk None (Some "5") None (Some "true") None None)))
  /\ data (listProducts specCatalog
             (onlyCategory
                (Query.mk None (Some "5") None (Some "true") None None)))
     = specCatalog.
Proof.
  pose proof (listProducts_intersection specCatalog
                (Query.mk None (Some "5") None (Some "true") None None))
    as [Hcap [[Hnoop _] _]].
  split.
  - apply (proj2 (Hcap specProduct1)). repeat split; now left.
  - apply Hnoop. reflexivity.
Defined.

Lemma byMinPrice_NaN s p : parseFloat s = NaN -> byMinPrice s p = false.
Proof. unfold byMinPrice, geb. now intros ->. Qed.

Lemma byMaxPrice_NaN s p : parseFloat s = NaN -> byMaxPrice s p = false.
Proof.
  unfold byMaxPrice. intros ->. now destruct (Product.price p).
Qed.

(** C6, as stated, fails: an empty [minPrice] does not parse to a number,
    yet the filter is skipped and the scenario catalog comes back whole. *)
Lemma listProducts_empty_bound_is_skipped :
  ~ (forall (products : list Product) (q : Query.t) (s : string),
       Query.minPrice q = Some s \/ Query.maxPrice q = Some s ->
       parseFloat s = NaN ->
       data (listProducts products q) = [] /\
       count (listProducts products q) = 0%nat).
Proof.
  intros H.
  destruct (H specCatalog (Query.mk None (Some "") None None None None) ""
              (or_introl eq_refl) eq_refl) as [H1 _].
  discriminate H1.
Qed.

(** C6, amended. For every catalog and every query in which a supplied,
    non-empty [minPrice] or [maxPrice] does not parse to a number,
    [listProducts] returns the empty sequence with count 0. *)
Theorem listProducts_unparsable_bound (products : list Product) (q : Query.t)
    (s : string) :
  Query.minPrice q = Some s \/ Query.maxPrice q = Some s ->
  s <> "" ->
  parseFloat s = NaN ->
  listProducts products q = {| success := true; count := 0; data := [] |}.
Proof.
  intros Hs Hne Hnan. apply truthy_true in Hne.
  assert (E : data (listProducts products q) = []).
  { destruct (data (listProducts products q)) as [|p rest] eqn:D;
      [reflexivity | exfalso].
    assert (Hp : In p (data (listProducts products q)))
      by (rewrite D; now left).
    rewrite listProducts_In in Hp.
    repeat (rewrite filterIfTruthy_In in Hp || rewrite filterIfDefined_In in Hp).
    pose proof (byMinPrice_NaN s p Hnan). pose proof (byMaxPrice_NaN s p Hnan).
    destruct Hs as [Hs | Hs]; rewrite Hs in Hp; intuition congruence. }
  unfold listProducts in *; cbn [data] in E. now rewrite E.
Qed.

Lemma listProducts_unparsable_bound_witness :
  listProducts specCatalog (Query.mk None None (Some "cheap") None None None)
  = {| success := true; count := 0; data := [] |}.
Proof.
  apply (listProducts_unparsable_bound specCatalog
           (Query.mk None None (Some "cheap") None None None) "cheap").
  - right; reflexivity.
  - discriminate.
  - reflexivity.
Defined.

(** ** [listCategories] *)

Lemma count_by_category (products : list Product) (c : string) :
  List.length
    (filter (fun product => String.eqb (Product.category product) c) products)
  = count_occ string_dec (map Product.category products) c.
Proof.
  induction products as [|p ps IH]; simpl; [reflexivity|].
  destruct (string_dec (Product.category p) c) as [E | E].
  - apply String.eqb_eq in E. rewrite E. simpl. now rewrite IH.
  - apply String.eqb_neq in E. now rewrite E.
Qed.

(** C7. For every catalog, [listCategories] returns one entry per entry of
    the category list, in order, each pairing the name with the number of
    products whose category is exactly that name. *)
Theorem listCategories_counts (products : list Product)
    (categories : list string) :
  map cc_name (listCategories products categories) = categories /\
  Forall (fun entry =>
            cc_count entry =
            count_occ string_dec (map Product.category products)
              (cc_name entry))
         (listCategories products categories).
Proof.
  unfold listCategories. split.
  - rewrite map_map. cbn [cc_name]. apply map_id.
  - apply Forall_map, Forall_forall. intros c _. cbn [cc_name cc_count].
    apply count_by_category.
Qed.

(** ** [getStats] *)

(** C1, as stated, fails: on the scenario catalog one product has the
    category "Vegetarian", and [vegetarianOptions] is 0. *)
Lemma getStats_vegetarian_scenario :
  count_occ string_dec (map Product.category specCatalog) "Vegetarian" = 1%nat
  /\ vegetarianOptions (getStats specCatalog specCategories) = 0%nat
  /\ vegetarianOptions (getStats specCatalog specCategories) <> 1%nat.
Proof. repeat split. discriminate. Qed.

(** C1, amended. [vegetarianOptions] counts exactly the products whose
    category equals the literal "Vegetariano"; on the scenario catalog,
    whose product 1 has the category "Vegetarian", it is 0. *)
Theorem getStats_vegetarianOptions (products : list Product)
    (categories : list string) :
  vegetarianOptions (getStats products categories)
  = count_occ string_dec (map Product.category products) "Vegetariano"
  /\ vegetarianOptions (getStats specCatalog categories) = 0%nat.
Proof.
  split; [|reflexivity]. cbn [getStats vegetarianOptions].
  apply count_by_category.
Qed.

(** C10. On an empty product collection [getStats] returns a record:
    the counts and the review total are 0, and both averages are the
    string "NaN". *)
Theorem getStats_empty (categories : list string) :
  getStats [] categories =
  {| totalProducts := 0;
     totalCategories := List.length categories;
     averagePrice := Some "NaN";
     averageRating := Some "NaN";
     totalReviews := 0;
     availableProducts := 0;
     vegetarianOptions := 0;
     spicyOptions := 0 |}.
Proof. reflexivity. Qed.

(** ** [listProductsByCategory] *)

Lemma byCategory_ci (c1 c2 : string) :
  toLowerCase c1 = toLowerCase c2 ->
  forall xs, filter (byCategory c1) xs = filter (byCategory c2) xs.
Proof.
  intros E xs. apply filter_ext. intros p. unfold byCategory. now rewrite E.
Qed.

(** The route is insensitive to letter case in which products it selects
    and in whether it answers "not found"; the [category] field of a
    successful answer repeats the argument as it was given. *)
Lemma listProductsByCategory_ci (products : list Product) (c1 c2 : string) :
  toLowerCase c1 = toLowerCase c2 ->
  match listProductsByCategory products c1,
        listProductsByCategory products c2 with
  | CategoryFound e1 n1 d1, CategoryFound e2 n2 d2 =>
      e1 = c1 /\ e2 = c2 /\ n1 = n2 /\ d1 = d2
  | CategoryNotFound m1, CategoryNotFound m2 => m1 = m2
  | _, _ => False
  end.
Proof.
  intros E. unfold listProductsByCategory.
  rewrite (byCategory_ci c1 c2 E).
  destruct (List.length (filter (byCategory c2) products) =? 0)%nat; auto.
Qed.

(** C2, as stated, fails: on the scenario catalog the two responses differ
    (in the [category] field). *)
Lemma listProductsByCategory_echoes_argument :
  listProductsByCategory specCatalog "VEGETARIAN"
  <> listProductsByCategory specCatalog "vegetarian".
Proof. discriminate. Qed.

(** C2, amended. For every catalog, [listProductsByCategory "VEGETARIAN"]
    and [listProductsByCategory "vegetarian"] are either both the same
    "not found" response or both successful with the same count and the
    same product sequence; the [category] field of each successful response
    is the argument as given. *)
Theorem listProductsByCategory_case_insensitive (products : list Product) :
  match listProductsByCategory products "VEGETARIAN",
        listProductsByCategory products "vegetarian" with
  | CategoryFound e1 n1 d1, CategoryFound e2 n2 d2 =>
      e1 = "VEGETARIAN" /\ e2 = "vegetarian" /\ n1 = n2 /\ d1 = d2
  | CategoryNotFound m1, CategoryNotFound m2 => m1 = m2
  | _, _ => False
  end.
Proof. now apply listProductsByCategory_ci. Qed.

(** ** [getFeaturedProducts] *)

Lemma num_ge_trans (a b c : number) : num_ge a b -> num_ge b c -> num_ge a c.
Proof.
  unfold num_ge, geb.
  destruct a as [| |x|], b as [| |y|], c as [| |z|]; simpl;
    try reflexivity; try discriminate.
  rewrite !Qle_bool_iff. intros H1 H2. now apply Qle_trans with y.
Qed.

Lemma featured_orderable (a : number) : num_ge a featuredRating -> orderable a.
Proof. destruct a; simpl; auto; discriminate. Qed.

(** On such ratings the comparator [b - a] orders as [>=] does. *)
Lemma byRating_after (a b : number) :
  gtb (JsArray.sortCompare (fun x y => sub y x) a b) (Fin 0) = true ->
  num_ge b a.
Proof.
  unfold JsArray.sortCompare, num_ge, geb.
  destruct a as [| |x|], b as [| |y|]; simpl; try reflexivity; try discriminate.
  rewrite negb_true_iff, Qle_bool_iff. intros H.
  destruct (Qle_bool (y - x) 0) eqn:E; [discriminate|].
  assert (~ (y - x <= 0)%Q) by (rewrite <- Qle_bool_iff; congruence). lra.
Qed.

Lemma byRating_before (a b : number) :
  orderable a -> orderable b ->
  gtb (JsArray.sortCompare (fun x y => sub y x) a b) (Fin 0) = false ->
  num_ge a b.
Proof.
  unfold JsArray.sortCompare, num_ge, geb.
  destruct a as [| |x|], b as [| |y|]; simpl; try reflexivity; try tauto;
    try discriminate.
  rewrite negb_false_iff, !Qle_bool_iff. intros _ _ H. lra.
Qed.

Section SortFacts.
Context {A : Type}.
Variable key : A -> number.

Let comparefn (a b : A) : number := sub (key b) (key a).
Let R (a b : A) : Prop := num_ge (key a) (key b).
Let ok (a : A) : Prop := orderable (key a).

Lemma insert_Forall (P : A -> Prop) x l :
  P x -> Forall P l -> Forall P (JsArray.insert comparefn x l).
Proof.
  intros Hx Hl. induction Hl as [|y l Hy Hl IH]; simpl.
  - now constructor.
  - destruct (gtb _ _); repeat constructor; auto.
Qed.

Lemma sort_Forall (P : A -> Prop) l :
  Forall P l -> Forall P (JsArray.sort comparefn l).
Proof.
  induction 1 as [|x l Hx Hl IH]; simpl; [constructor|].
  now apply insert_Forall.
Qed.

Lemma insert_HdRel y x l :
  R y x -> HdRel R y l -> HdRel R y (JsArray.insert comparefn x l).
Proof.
  intros Hyx Hl. destruct l as [|z l]; simpl.
  - now constructor.
  - destruct (gtb _ _); constructor; auto. now inversion Hl.
Qed.

Lemma insert_Sorted x l :
  ok x -> Forall ok l -> Sorted R l ->
  Sorted R (JsArray.insert comparefn x l).
Proof.
  intros Hx Hok Hl. induction Hl as [|y l Hl IH Hd]; simpl.
  - repeat constructor.
  - inversion Hok as [|? ? Hy Hok']; subst.
    destruct (gtb _ _) eqn:E.
    + constructor; [now apply IH|].
      apply insert_HdRel; [|assumption].
      unfold R. now apply byRating_after in E.
    + repeat constructor; auto.
      unfold R. now apply byRating_before in E.
Qed.

Lemma sort_Sorted l :
  Forall ok l -> Sorted R (JsArray.sort comparefn l).
Proof.
  induction 1 as [|x l Hx Hl IH]; simpl; [constructor|].
  apply insert_Sorted; auto. now apply sort_Forall.
Qed.

Lemma sort_StronglySorted l :
  Forall ok l -> StronglySorted R (JsArray.sort comparefn l).
Proof.
  intros H. apply Sorted_StronglySorted; [|now apply sort_Sorted].
  intros a b c. apply num_ge_trans.
Qed.
End SortFacts.

Lemma firstn_incl {A} n (l : list A) x : In x (firstn n l) -> In x l.
Proof.
  revert n. induction l as [|y l IH]; intros [|n]; simpl; try tauto.
  intros [E | H]; [now left | right; eauto].
Qed.

Lemma firstn_StronglySorted {A} (R : A -> A -> Prop) n l :
  StronglySorted R l -> StronglySorted R (firstn n l).
Proof.
  intros H. revert n. induction H as [|x l Hl IH Hx]; intros [|n]; simpl;
    try constructor; auto.
  apply Forall_forall. intros y Hy. apply firstn_incl in Hy.
  rewrite Forall_forall in Hx. auto.
Qed.

Lemma firstn_Forall {A} (P : A -> Prop) n l :
  Forall P l -> Forall P (firstn n l).
Proof.
  intros H. apply Forall_forall. intros y Hy. apply firstn_incl in Hy.
  rewrite Forall_forall in H. auto.
Qed.

(** C3. For every catalog, [getFeaturedProducts] returns at most 6 items,
    each with a rating of at least 4.5, in a sequence in which every item's
    rating is at least that of every later item; the count reported is the
    number of items. *)
Theorem getFeaturedProducts_spec (products : list Product) :
  let r := getFeaturedProducts products in
  (List.length (data r) <= 6)%nat
  /\ count r = List.length (data r)
  /\ StronglySorted
       (fun a b => geb (Product.rating a) (Product.rating b) = true) (data r)
  /\ Forall (fun p => geb (Product.rating p) featuredRating = true) (data r).
Proof.
  cbn zeta. unfold getFeaturedProducts, JsArray.slice0. cbn [data count].
  set (kept := filter _ products).
  assert (Hk : Forall (fun p => num_ge (Product.rating p) featuredRating) kept).
  { apply Forall_forall. intros p Hp. apply filter_In in Hp. apply Hp. }
  repeat split.
  - apply firstn_le_length.
  - apply firstn_StronglySorted.
    apply (sort_StronglySorted Product.rating).
    revert Hk. apply Forall_impl. intros p. apply featured_orderable.
  - apply firstn_Forall. now apply (sort_Forall Product.rating).
Qed.

(** ** [getProductById] *)

(** *** [parseInt] reads back the decimal rendering of an integer *)

Section DecimalFacts.

Lemma digit_of_digit_char (d : Z) :
  0 <= d < 10 -> digit_of 10 (digit_char d) = Some d.
Proof.
  intros H.
  assert (C : d = 0 \/ d = 1 \/ d = 2 \/ d = 3 \/ d = 4 \/ d = 5 \/ d = 6
              \/ d = 7 \/ d = 8 \/ d = 9) by lia.
  repeat destruct C as [-> | C]; try reflexivity. now subst.
Qed.

Lemma digits_decimal_aux (fuel : nat) :
  forall n acc len a,
    0 <= n < 2 ^ Z.of_nat (S fuel) ->
    exists k : nat,
      digits 10 (decimal_aux (S fuel) n acc) len a
      = digits 10 acc (len + S k) (a * 10 ^ Z.of_nat (S k) + n).
Proof.
  induction fuel as [|fuel IH]; intros n acc len a Hn.
  - exists O. cbn [decimal_aux].
    assert (E : (n <? 10) = true) by (apply Z.ltb_lt; cbn in Hn; lia).
    rewrite E. cbn [digits].
    rewrite Z.mod_small by (cbn in Hn; lia).
    rewrite digit_of_digit_char by (cbn in Hn; lia).
    f_equal; cbn; lia.
  - remember (S fuel) as f eqn:Ef. cbn [decimal_aux].
    destruct (n <? 10) eqn:E.
    + apply Z.ltb_lt in E. exists O. cbn [digits].
      rewrite Z.mod_small by lia.
      rewrite digit_of_digit_char by lia.
      f_equal; cbn; lia.
    + apply Z.ltb_ge in E. subst f.
      assert (Hq : 0 <= n / 10 < 2 ^ Z.of_nat (S fuel)).
      { split; [apply Z.div_pos; lia|].
        apply Z.div_lt_upper_bound; [lia|].
        replace (Z.of_nat (S (S fuel))) with (Z.succ (Z.of_nat (S fuel)))
          in Hn by lia.
        rewrite Z.pow_succ_r in Hn by lia. lia. }
      destruct (IH (n / 10) (String (digit_char (n mod 10)) acc) len a Hq)
        as [k Hk].
      exists (S k). rewrite Hk. cbn [digits].
      rewrite digit_of_digit_char by (apply Z.mod_pos_bound; lia).
      f_equal; [lia|].
      replace (Z.of_nat (S (S k))) with (Z.succ (Z.of_nat (S k))) by lia.
      rewrite Z.pow_succ_r by lia.
      pose proof (Z.div_mod n 10 ltac:(lia)). lia.
Qed.

Lemma digits_decimal (n : Z) :
  0 <= n -> exists k : nat, digits 10 (decimal n) 0 0 = (S k, n, "").
Proof.
  intros Hn. unfold decimal.
  assert (B : 0 <= n < 2 ^ Z.of_nat (S (Z.to_nat (Z.log2 n)))).
  { split; [assumption|].
    pose proof (Z.log2_nonneg n).
    replace (Z.of_nat (S (Z.to_nat (Z.log2 n)))) with (Z.succ (Z.log2 n))
      by lia.
    destruct (Z.eq_dec n 0) as [-> | Hz]; [reflexivity|].
    apply Z.log2_spec. lia. }
  destruct (digits_decimal_aux _ n "" O 0 B) as [k Hk].
  exists k. rewrite Hk. cbn [digits].
  now rewrite Z.mul_0_l, Z.add_0_l.
Qed.

Lemma digit_is_plain (c : ascii) :
  digit_of 10 c <> None ->
  is_space c = false /\ Ascii.eqb c "-" = false /\ Ascii.eqb c "+" = false.
Proof.
  destruct c as [[] [] [] [] [] [] [] []]; vm_compute; intros H;
    try (exfalso; apply H; reflexivity); repeat split.
Qed.

Lemma parseInt_decimal (n : Z) : 0 <= n -> parseInt (decimal n) = Some n.
Proof.
  intros Hn. destruct (digits_decimal n Hn) as [k Hk].
  destruct (decimal n) as [|c r] eqn:Es; [discriminate Hk|].
  assert (Hc : digit_of 10 c <> None).
  { intros E. cbn [digits] in Hk. rewrite E in Hk. discriminate Hk. }
  destruct (digit_is_plain c Hc) as (Hsp & Hm & Hp).
  unfold parseInt. cbn [trimStart]. rewrite Hsp.
  cbn [sign_of]. rewrite Hm, Hp.
  assert (Hx : startsWith (String c r) "0x" || startsWith (String c r) "0X"
               = false).
  { apply orb_false_iff. split;
      (destruct (startsWith (String c r) _) eqn:E; [|reflexivity];
       apply startsWith_spec in E; destruct E as [suf E];
       rewrite E in Hk; discriminate Hk). }
  rewrite Hx, Hk. f_equal. lia.
Qed.

Lemma parseInt_decimalString (z : Z) : parseInt (decimalString z) = Some z.
Proof.
  unfold decimalString. destruct (z <? 0) eqn:E.
  - apply Z.ltb_lt in E.
    assert (Hn : 0 <= - z) by lia.
    destruct (digits_decimal (- z) Hn) as [k Hk].
    pose proof (parseInt_decimal (- z) Hn) as P.
    destruct (decimal (- z)) as [|c r] eqn:Es; [discriminate Hk|].
    assert (Hc : digit_of 10 c <> None).
    { intros F. cbn [digits] in Hk. rewrite F in Hk. discriminate Hk. }
    destruct (digit_is_plain c Hc) as (Hsp & Hm & Hp).
    unfold parseInt in *.
    replace (trimStart (String c r)) with (String c r) in P
      by (cbn [trimStart]; now rewrite Hsp).
    replace (sign_of (String c r)) with (1, String c r) in P
      by (cbn [sign_of]; now rewrite Hm, Hp).
    replace (trimStart (String "-" (String c r)))
      with (String "-" (String c r)) by reflexivity.
    replace (sign_of (String "-" (String c r))) with (-1, String c r)
      by reflexivity.
    cbv beta iota in *.
    destruct (startsWith (String c r) "0x" || startsWith (String c r) "0X").
    + destruct (digits 16 (drop2 (String c r)) 0 0) as [[[|l] v] rest];
        [discriminate P|]. injection P as P. f_equal. destruct v; lia.
    + destruct (digits 10 (String c r) 0 0) as [[[|l] v] rest];
        [discriminate P|]. injection P as P. f_equal. destruct v; lia.
  - apply parseInt_decimal. apply Z.ltb_ge in E. lia.
Qed.

End DecimalFacts.

Lemma find_by_id (products : list Product) (p : Product) :
  NoDup (map Product.id products) ->
  In p products ->
  find (idIs (Some (Product.id p))) products = Some p.
Proof.
  induction products as [|x xs IH]; intros Hnd Hin; [contradiction|].
  cbn [map] in Hnd. inversion Hnd as [|? ? Hx Hxs]; subst.
  cbn [find idIs]. destruct (Product.id x =? Product.id p) eqn:E.
  - apply Z.eqb_eq in E. destruct Hin as [-> | Hin]; [reflexivity|].
    exfalso. apply Hx. rewrite E. now apply in_map.
  - apply Z.eqb_neq in E. destruct Hin as [-> | Hin]; [congruence|].
    now apply IH.
Qed.

(** C8. For every catalog whose identifiers are unique and every product
    [p] of the catalog, [getProductById] called with [p]'s identifier, in
    its decimal rendering or as any other route parameter that [parseInt]
    reads as that identifier, answers with success and [p] as the data. *)
Theorem getProductById_found (products : list Product) (p : Product) :
  NoDup (map Product.id products) ->
  In p products ->
  getProductById products (decimalString (Product.id p)) = ProductFound p
  /\ forall idParam,
       parseInt idParam = Some (Product.id p) ->
       getProductById products idParam = ProductFound p.
Proof.
  intros Hnd Hin.
  assert (G : forall idParam,
             parseInt idParam = Some (Product.id p) ->
             getProductById products idParam = ProductFound p).
  { intros idParam Hparse. unfold getProductById.
    now rewrite Hparse, (find_by_id products p Hnd Hin). }
  split; [|exact G]. apply G, parseInt_decimalString.
Qed.

Lemma getProductById_found_witness :
  getProductById specCatalog "2" = ProductFound specProduct2
  /\ getProductById specCatalog " +2.0" = ProductFound specProduct2.
Proof.
  assert (Hnd : NoDup (map Product.id specCatalog))
    by (repeat constructor; simpl; intuition discriminate).
  assert (Hin : In specProduct2 specCatalog) by (right; left; reflexivity).
  destruct (getProductById_found specCatalog specProduct2 Hnd Hin) as [H1 H2].
  split; [exact H1 | apply H2; reflexivity].
Defined.

(** The scenario of the specification, evaluated. *)
Example scenario_available :
  listProducts specCatalog (Query.mk None None None (Some "true") None None)
  = {| success := true; count := 1; data := [specProduct1] |}.
Proof. reflexivity. Qed.

Example scenario_featured :
  getFeaturedProducts specCatalog
  = {| success := true; count := 1; data := [specProduct1] |}.
Proof. reflexivity. Qed.

Example scenario_averages :
  averagePrice (getStats specCatalog specCategories) = Some "15.00"
  /\ averageRating (getStats specCatalog specCategories) = Some "4.5".
Proof. split; reflexivity. Qed.

Example scenario_unknown_id :
  getProductById specCatalog "999" = ProductNotFound "Producto no encontrado".
Proof. reflexivity. Qed.

(** ** The route table *)

(** The path of the featured listing is taken by the [:id] route, which is
    registered first; its handler reads "featured" as no number and
    answers "not found" on every catalog.  The category route, one segment
    longer, is reached. *)
Remark featured_route_is_shadowed (products : list Product) :
  Router.dispatch ["api"; "products"; "featured"]
  = Some (Router.GetProductById, [("id", "featured")])
  /\ getProductById products "featured"
     = ProductNotFound "Producto no encontrado"
  /\ Router.dispatch ["api"; "products"; "category"; "vegetarian"]
     = Some (Router.ListProductsByCategory, [("category", "vegetarian")]).
Proof.
  repeat split. unfold getProductById.
  replace (parseInt "featured") with (@None Z) by reflexivity.
  induction products as [|x xs IH]; [reflexivity | exact IH].
Qed.

(** ** [loadData] *)

Section LoaderFacts.
Variable Error : Type.
Variable showError : Error -> string.
Variable dirname : string.
Variable pathJoin : string -> string -> string.
Variable readFileSync : string -> Eff.outcome Error string.
Variable JSONparse : string -> Eff.outcome Error Json.

Let load := loadData Error showError dirname pathJoin readFileSync JSONparse.
Let dataPath := pathJoin dirname "data.json".

Lemma loadData_read_failure e :
  readFileSync dataPath = Eff.Throw e ->
  load = (["Error al cargar datos: " ++ showError e], Eff.Return emptyCatalog).
Proof.
  intros H. unfold load, loadData, Eff.tryCatch, Eff.bind. fold dataPath.
  now rewrite H.
Qed.

Lemma loadData_parse_failure raw e :
  readFileSync dataPath = Eff.Return raw ->
  JSONparse raw = Eff.Throw e ->
  load = (["Error al cargar datos: " ++ showError e], Eff.Return emptyCatalog).
Proof.
  intros H1 H2. unfold load, loadData, Eff.tryCatch, Eff.bind. fold dataPath.
  now rewrite H1, H2.
Qed.

Lemma loadData_success raw doc :
  readFileSync dataPath = Eff.Return raw ->
  JSONparse raw = Eff.Return doc ->
  load = ([], Eff.Return doc).
Proof.
  intros H1 H2. unfold load, loadData, Eff.tryCatch, Eff.bind. fold dataPath.
  now rewrite H1, H2.
Qed.
End LoaderFacts.

(** C9. [loadData] never throws: it returns a document whatever the file
    system and the parser do.  When reading the file throws, or parsing
    what was read throws, the document returned is the empty catalog; when
    both succeed it is the parsed document. *)
Theorem loadData_never_throws (Error : Type) (showError : Error -> string)
    (dirname : string) (pathJoin : string -> string -> string)
    (readFileSync : string -> Eff.outcome Error string)
    (JSONparse : string -> Eff.outcome Error Json) :
  (exists doc,
     snd (loadData Error showError dirname pathJoin readFileSync JSONparse)
     = Eff.Return doc) /\
  (forall e,
     readFileSync (pathJoin dirname "data.json") = Eff.Throw e ->
     snd (loadData Error showError dirname pathJoin readFileSync JSONparse)
     = Eff.Return emptyCatalog) /\
  (forall raw e,
     readFileSync (pathJoin dirname "data.json") = Eff.Return raw ->
     JSONparse raw = Eff.Throw e ->
     snd (loadData Error showError dirname pathJoin readFileSync JSONparse)
     = Eff.Return emptyCatalog) /\
  (forall raw doc,
     readFileSync (pathJoin dirname "data.json") = Eff.Return raw ->
     JSONparse raw = Eff.Return doc ->
     snd (loadData Error showError dirname pathJoin readFileSync JSONparse)
     = Eff.Return doc).
Proof.
  repeat split.
  - destruct (readFileSync (pathJoin dirname "data.json")) as [raw | e] eqn:R.
    + destruct (JSONparse raw) as [doc | e] eqn:P.
      * exists doc. now rewrite (loadData_success _ _ _ _ _ _ raw doc R P).
      * exists emptyCatalog.
        now rewrite (loadData_parse_failure _ _ _ _ _ _ raw e R P).
    + exists emptyCatalog. now rewrite (loadData_read_failure _ _ _ _ _ _ e R).
  - intros e R. now rewrite (loadData_read_failure _ _ _ _ _ _ e R).
  - intros raw e R P. now rewrite (loadData_parse_failure _ _ _ _ _ _ raw e R P).
  - intros raw doc R P. now rewrite (loadData_success _ _ _ _ _ _ raw doc R P).
Qed.

Lemma loadData_never_throws_witness :
  snd (loadData string (fun e => e) "/app"
         (fun a b => a ++ "/" ++ b)
         (fun _ => Eff.Return "{ products: ")
         (fun _ => Eff.Throw "SyntaxError: Unexpected end of JSON input"))
  = Eff.Return emptyCatalog.
Proof.
  apply (proj1 (proj2 (proj2
           (loadData_never_throws string (fun e => e) "/app"
              (fun a b => a ++ "/" ++ b)
              (fun _ => Eff.Return "{ products: ")
              (fun _ => Eff.Throw "SyntaxError: Unexpected end of JSON input"))))
         "{ products: " "SyntaxError: Unexpected end of JSON input");
    reflexivity.
Defined.

(* ================================================================ *)
(** * Further properties of the handlers *)

(** ** [listProducts]: the six filters as one *)

Lemma filter_filter {A} (f g : A -> bool) (xs : list A) :
  filter g (filter f xs) = filter (fun x => f x && g x) xs.
Proof.
  induction xs as [|x xs IH]; simpl; [reflexivity|].
  destruct (f x); simpl; [destruct (g x)|]; now rewrite IH.
Qed.

Lemma filter_all {A} (f : A -> bool) (xs : list A) :
  (forall x, In x xs -> f x = true) -> filter f xs = xs.
Proof.
  induction xs as [|x xs IH]; intros H; simpl; [reflexivity|].
  rewrite (H x) by now left. f_equal. apply IH. intros y Hy. apply H. now right.
Qed.

Lemma filter_nothing {A} (f : A -> bool) (xs : list A) :
  (forall x, In x xs -> f x = false) -> filter f xs = [].
Proof.
  induction xs as [|x xs IH]; intros H; simpl; [reflexivity|].
  rewrite (H x) by now left. apply IH. intros y Hy. apply H. now right.
Qed.

Lemma filterIfTruthy_asks v keep xs :
  filterIfTruthy v keep xs = filter (asksIfTruthy v keep) xs.
Proof.
  unfold filterIfTruthy, asksIfTruthy. destruct v as [s|].
  - destruct (truthy s); [reflexivity|]. symmetry. now apply filter_all.
  - symmetry. now apply filter_all.
Qed.

Lemma filterIfDefined_asks v keep xs :
  filterIfDefined v keep xs = filter (asksIfDefined v keep) xs.
Proof.
  unfold filterIfDefined, asksIfDefined. destruct v as [s|]; [reflexivity|].
  symmetry. now apply filter_all.
Qed.

(** The six guarded filters amount to one. *)
Lemma listProducts_filter (products : list Product) (q : Query.t) :
  listProducts products q =
  {| success := true;
     count := List.length (filter (matchesQuery q) products);
     data := filter (matchesQuery q) products |}.
Proof.
  assert (E : data (listProducts products q) = filter (matchesQuery q) products).
  { unfold listProducts; cbn [data].
    rewrite !filterIfTruthy_asks, !filterIfDefined_asks.
    rewrite !filter_filter. apply filter_ext. intros p.
    unfold matchesQuery. now rewrite !andb_assoc. }
  unfold listProducts in *; cbn [data] in E. now rewrite E.
Qed.

(** X1. [listProducts] returns the products that satisfy all the applied
    filters, in the order of the catalog and as often as the catalog has
    them: its data is the catalog filtered once by the conjunction of what
    the six filters ask, and its count is the length of that. *)
Theorem listProducts_as_filter (products : list Product) (q : Query.t) :
  listProducts products q =
  {| success := true;
     count := List.length (filter (matchesQuery q) products);
     data := filter (matchesQuery q) products |}.
Proof. apply listProducts_filter. Qed.

(** X2. Filtering composes: running a second query on the data of a first
    gives the data of running them in the other order, and running the
    same query on its own result changes nothing. *)
Theorem listProducts_compose (products : list Product) (q1 q2 : Query.t) :
  data (listProducts (data (listProducts products q1)) q2)
  = data (listProducts (data (listProducts products q2)) q1)
  /\ listProducts (data (listProducts products q1)) q1
     = listProducts products q1.
Proof.
  rewrite !listProducts_filter; cbn [data]. rewrite !filter_filter. split.
  - apply filter_ext. intros p. apply andb_comm.
  - assert (E : filter (fun x => matchesQuery q1 x && matchesQuery q1 x) products
                = filter (matchesQuery q1) products)
      by (apply filter_ext; intros p; apply andb_diag).
    now rewrite E.
Qed.

(** X3. A supplied [spicyLevel] that [parseInt] does not read as a number,
    the empty string included, leaves no product: the response is empty
    with count 0, whatever the other filters are. *)
Theorem listProducts_unparsable_spicyLevel (products : list Product)
    (q : Query.t) (s : string) :
  Query.spicyLevel q = Some s ->
  parseInt s = None ->
  listProducts products q = {| success := true; count := 0; data := [] |}.
Proof.
  intros Hs Hnan. rewrite listProducts_filter.
  rewrite filter_nothing; [reflexivity|].
  intros p _. unfold matchesQuery. rewrite Hs.
  cbn [asksIfDefined]. unfold bySpicyLevel. rewrite Hnan.
  now rewrite andb_false_r.
Qed.

Lemma listProducts_unparsable_spicyLevel_witness :
  listProducts specCatalog (Query.mk None None None None (Some "") None)
  = {| success := true; count := 0; data := [] |}.
Proof.
  apply (listProducts_unparsable_spicyLevel specCatalog
           (Query.mk None None None None (Some "") None) "");
    reflexivity.
Defined.

(** X4. A supplied [available] other than the exact string "true" selects
    the products that are not available: with that filter alone the data is
    the unavailable products of the catalog, in order. *)
Theorem listProducts_available_not_true (products : list Product) (s : string) :
  s <> "true" ->
  data (listProducts products (Query.mk None None None (Some s) None None))
  = filter (fun p => negb (Product.available p)) products.
Proof.
  intros Hs. rewrite listProducts_filter; cbn [data].
  apply filter_ext. intros p. unfold matchesQuery, byAvailable; cbn.
  apply String.eqb_neq in Hs. rewrite Hs, andb_true_r.
  now destruct (Product.available p).
Qed.

Lemma listProducts_available_not_true_witness :
  data (listProducts specCatalog
          (Query.mk None None None (Some "TRUE") None None))
  = filter (fun p => negb (Product.available p)) specCatalog.
Proof.
  apply (listProducts_available_not_true specCatalog "TRUE"). discriminate.
Defined.

(** X5. When both price bounds parse to finite numbers and the upper one is
    below the lower one, no product is returned. *)
Theorem listProducts_crossed_bounds (products : list Product) (q : Query.t)
    (lo hi : string) (x y : Q) :
  Query.minPrice q = Some lo ->
  Query.maxPrice q = Some hi ->
  parseFloat lo = Fin x ->
  parseFloat hi = Fin y ->
  (y < x)%Q ->
  listProducts products q = {| success := true; count := 0; data := [] |}.
Proof.
  intros Hlo Hhi Px Py Hlt. rewrite listProducts_filter.
  rewrite filter_nothing; [reflexivity|].
  intros p _. unfold matchesQuery. rewrite Hlo, Hhi. cbn [asksIfTruthy].
  assert (Tlo : truthy lo = true) by (destruct lo; [discriminate Px | reflexivity]).
  assert (Thi : truthy hi = true) by (destruct hi; [discriminate Py | reflexivity]).
  rewrite Tlo, Thi. unfold byMinPrice, byMaxPrice, geb. rewrite Px, Py.
  assert (C : leb (Fin x) (Product.price p) && leb (Product.price p) (Fin y)
              = false).
  { destruct (Product.price p) as [| |z|]; simpl; try reflexivity;
      try apply andb_false_r.
    destruct (Qle_bool x z) eqn:E1; [|reflexivity].
    destruct (Qle_bool z y) eqn:E2; [|reflexivity].
    apply Qle_bool_iff in E1, E2. lra. }
  destruct (asksIfTruthy (Query.category q) byCategory p); [|reflexivity].
  cbn [andb]. rewrite C. reflexivity.
Qed.

Lemma listProducts_crossed_bounds_witness :
  listProducts specCatalog (Query.mk None (Some "20") (Some "10") None None None)
  = {| success := true; count := 0; data := [] |}.
Proof.
  apply (listProducts_crossed_bounds specCatalog
           (Query.mk None (Some "20") (Some "10") None None None)
           "20" "10" (inject_Z 20 * Qpower (inject_Z 10) 0)
           (inject_Z 10 * Qpower (inject_Z 10) 0));
    try reflexivity.
Defined.

(** ** [getProductById]: the first match, or none *)

Lemma find_split {A} (f : A -> bool) (xs : list A) :
  match find f xs with
  | Some x =>
      exists before after,
        xs = (before ++ x :: after)%list
        /\ f x = true
        /\ Forall (fun y => f y = false) before
  | None => Forall (fun y => f y = false) xs
  end.
Proof.
  induction xs as [|x xs IH]; cbn [find]; [constructor|].
  destruct (f x) eqn:E.
  - exists [], xs. repeat split; auto.
  - destruct (find f xs) as [y|].
    + destruct IH as (before & after & -> & Hy & Hb).
      exists (x :: before), after. repeat split; auto.
    + now constructor.
Qed.

Lemma idIs_spec (n : option Z) (p : Product) :
  idIs n p = true <-> n = Some (Product.id p).
Proof.
  unfold idIs. destruct n as [z|]; [|split; discriminate].
  rewrite Z.eqb_eq. split; [intros ->; reflexivity | intros H; now injection H].
Qed.

(** X6. [getProductById] answers with the first product of the catalog
    whose identifier is the number [parseInt] reads in the parameter, and
    with "not found" exactly when the catalog has no such product (in
    particular when the parameter is no number); it never throws and never
    answers with a product that is not in the catalog. *)
Theorem getProductById_first_match (products : list Product)
    (idParam : string) :
  match getProductById products idParam with
  | ProductFound p =>
      exists before after,
        products = (before ++ p :: after)%list
        /\ parseInt idParam = Some (Product.id p)
        /\ Forall (fun x => parseInt idParam <> Some (Product.id x)) before
  | ProductNotFound message =>
      message = "Producto no encontrado"
      /\ Forall (fun x => parseInt idParam <> Some (Product.id x)) products
  end.
Proof.
  unfold getProductById.
  pose proof (find_split (idIs (parseInt idParam)) products) as H.
  assert (N : forall l,
             Forall (fun y => idIs (parseInt idParam) y = false) l ->
             Forall (fun x => parseInt idParam <> Some (Product.id x)) l).
  { intros l. apply Forall_impl. intros x Hx E.
    apply idIs_spec in E. congruence. }
  destruct (find (idIs (parseInt idParam)) products) as [p|].
  - destruct H as (before & after & E & Hp & Hb).
    exists before, after. repeat split; auto. now apply idIs_spec.
  - split; auto.
Qed.

(** ** [listProductsByCategory] *)

Lemma byCategory_spec (c : string) (p : Product) :
  byCategory c p = true <->
  toLowerCase (Product.category p) = toLowerCase c.
Proof. unfold byCategory. apply String.eqb_eq. Qed.

(** X7. [listProductsByCategory] succeeds exactly when some product has
    the category up to letter case.  A successful response is never empty:
    it repeats the argument, holds exactly the products of that category,
    in catalog order, and counts them.  "Not found" means that no product
    of the catalog has the category. *)
Theorem listProductsByCategory_spec (products : list Product) (c : string) :
  match listProductsByCategory products c with
  | CategoryFound echoed n d =>
      echoed = c
      /\ n = List.length d
      /\ (0 < n)%nat
      /\ d = filter (fun p => String.eqb (toLowerCase (Product.category p))
                                (toLowerCase c)) products
      /\ exists p, In p products
                   /\ toLowerCase (Product.category p) = toLowerCase c
  | CategoryNotFound message =>
      message = "No se encontraron productos en esta categoría"
      /\ Forall (fun p => toLowerCase (Product.category p) <> toLowerCase c)
           products
  end.
Proof.
  unfold listProductsByCategory.
  destruct (filter (byCategory c) products) as [|p d] eqn:E; cbn.
  - split; [reflexivity|]. apply Forall_forall. intros p Hp Hc.
    apply byCategory_spec in Hc.
    assert (Hin : In p (filter (byCategory c) products))
      by (apply filter_In; auto).
    now rewrite E in Hin.
  - repeat split; try lia.
    + now rewrite <- E.
    + exists p. rewrite <- byCategory_spec, <- filter_In, E. now left.
Qed.

(** X8. For a non-empty category name the category route and the
    [category] filter of [listProducts] select the same products: the
    filter's data is the route's data, and is empty when the route answers
    "not found". *)
Theorem listProductsByCategory_agrees_with_filter (products : list Product)
    (c : string) :
  c <> "" ->
  data (listProducts products (Query.mk (Some c) None None None None None))
  = match listProductsByCategory products c with
    | CategoryFound _ _ d => d
    | CategoryNotFound _ => []
    end.
Proof.
  intros Hc. rewrite listProducts_filter; cbn [data].
  assert (E : filter (matchesQuery (Query.mk (Some c) None None None None None))
                products
              = filter (byCategory c) products).
  { apply filter_ext. intros p. unfold matchesQuery; cbn.
    rewrite (truthy_true c Hc). now rewrite !andb_true_r. }
  rewrite E. unfold listProductsByCategory.
  destruct (filter (byCategory c) products); reflexivity.
Qed.

Lemma listProductsByCategory_agrees_with_filter_witness :
  data (listProducts specCatalog
          (Query.mk (Some "MEAT") None None None None None))
  = [specProduct2].
Proof.
  rewrite (listProductsByCategory_agrees_with_filter specCatalog "MEAT");
    [reflexivity | discriminate].
Defined.

(** ** [listCategories] *)

Lemma list_sum_cons' (a : nat) (l : list nat) :
  list_sum (a :: l) = (a + list_sum l)%nat.
Proof. reflexivity. Qed.

Lemma count_occ_hits (x : string) (cats : list string) :
  NoDup cats ->
  list_sum (map (fun c => if string_dec x c then 1 else 0)%nat cats)
  = if existsb (String.eqb x) cats then 1%nat else 0%nat.
Proof.
  induction 1 as [|c cats Hc Hnd IH]; [reflexivity|].
  cbn [map existsb]. rewrite list_sum_cons', IH.
  destruct (string_dec x c) as [<- | Hne].
  - rewrite String.eqb_refl. cbn [orb].
    destruct (existsb (String.eqb x) cats) eqn:E; [|reflexivity].
    exfalso. apply Hc. apply existsb_exists in E.
    destruct E as (y & Hy & Hxy). apply String.eqb_eq in Hxy. now subst.
  - apply String.eqb_neq in Hne. now rewrite Hne.
Qed.

Lemma sum_of_counts (products : list Product) (categories : list string) :
  NoDup categories ->
  list_sum (map cc_count (listCategories products categories))
  = List.length
      (filter (fun p => existsb (String.eqb (Product.category p)) categories)
         products).
Proof.
  intros Hnd. unfold listCategories. rewrite map_map. cbn [cc_count].
  induction products as [|p ps IH].
  - cbn [filter List.length]. clear.
    induction categories as [|c cs IHc]; [reflexivity|].
    cbn [map]. now rewrite list_sum_cons', IHc.
  - assert (S : list_sum
                  (map (fun c => List.length
                          (filter (fun product =>
                             String.eqb (Product.category product) c)
                             (p :: ps))) categories)
                = (list_sum (map (fun c =>
                      if string_dec (Product.category p) c then 1 else 0)
                      categories)
                   + list_sum
                       (map (fun c => List.length
                          (filter (fun product =>
                             String.eqb (Product.category product) c) ps))
                          categories))%nat).
    { clear. induction categories as [|c cs IHc]; [reflexivity|].
      cbn [map]. rewrite !list_sum_cons', IHc. cbn [filter].
      destruct (string_dec (Product.category p) c) as [E | E].
      - apply String.eqb_eq in E. rewrite E. cbn [List.length]. lia.
      - apply String.eqb_neq in E. rewrite E. lia. }
    rewrite S, IH, (count_occ_hits _ _ Hnd). cbn [filter].
    destruct (existsb _ categories); reflexivity.
Qed.

(** X9. When the category list has no name twice, the counts of
    [listCategories] add up to the number of products whose category is
    on the list: to at most the number of products, and to exactly that
    number when every product's category is listed. *)
Theorem listCategories_total (products : list Product)
    (categories : list string) :
  NoDup categories ->
  (list_sum (map cc_count (listCategories products categories))
   <= List.length products)%nat
  /\ ((forall p, In p products -> In (Product.category p) categories) ->
      list_sum (map cc_count (listCategories products categories))
      = List.length products).
Proof.
  intros Hnd. rewrite (sum_of_counts _ _ Hnd). split.
  - apply filter_length_le.
  - intros Hall. rewrite filter_all; [reflexivity|].
    intros p Hp. apply existsb_exists. exists (Product.category p).
    split; [now apply Hall | apply String.eqb_refl].
Qed.

Lemma listCategories_total_witness :
  list_sum (map cc_count (listCategories specCatalog specCategories))
  = List.length specCatalog.
Proof.
  apply (listCategories_total specCatalog specCategories).
  - repeat constructor; simpl; intuition discriminate.
  - intros p [<- | [<- | []]]; simpl; auto.
Defined.

(** X10. The listing of categories compares names exactly, the category
    route up to letter case: a category that [listCategories] lists with a
    positive count is found by [listProductsByCategory], with at least that
    count; when the route answers "not found", the listed count is 0. *)
Theorem listCategories_below_route (products : list Product)
    (categories : list string) :
  Forall (fun entry =>
            match listProductsByCategory products (cc_name entry) with
            | CategoryFound _ n _ => (cc_count entry <= n)%nat
            | CategoryNotFound _ => cc_count entry = 0%nat
            end)
         (listCategories products categories).
Proof.
  unfold listCategories. apply Forall_map, Forall_forall. intros c _.
  cbn [cc_name cc_count]. unfold listProductsByCategory.
  assert (L : (List.length
                 (filter (fun product =>
                            String.eqb (Product.category product) c) products)
               <= List.length (filter (byCategory c) products))%nat).
  { induction products as [|p ps IH]; cbn [filter]; [lia|].
    destruct (byCategory c p) eqn:B;
      destruct (String.eqb (Product.category p) c) eqn:E;
      cbn [List.length]; try lia.
    apply String.eqb_eq in E. unfold byCategory in B.
    rewrite E, String.eqb_refl in B. discriminate B. }
  destruct (List.length (filter (byCategory c) products)) eqn:E;
    cbn [Nat.eqb]; lia.
Qed.

(** ** [getStats] *)

(** X11. The counts of [getStats] are counts of products: none exceeds
    [totalProducts]; [availableProducts] is the count that [listProducts]
    reports for [available] "true", and [totalCategories] is the number of
    entries [listCategories] returns. *)
Theorem getStats_counts (products : list Product) (categories : list string) :
  let stats := getStats products categories in
  (availableProducts stats <= totalProducts stats)%nat
  /\ (vegetarianOptions stats <= totalProducts stats)%nat
  /\ (spicyOptions stats <= totalProducts stats)%nat
  /\ availableProducts stats
     = count (listProducts products
                (Query.mk None None None (Some "true") None None))
  /\ totalCategories stats
     = List.length (listCategories products categories).
Proof.
  cbn zeta. cbn [getStats availableProducts vegetarianOptions spicyOptions
                 totalProducts totalCategories].
  repeat split; try apply filter_length_le.
  - rewrite listProducts_filter; cbn [count]. f_equal.
    apply filter_ext. intros p. unfold matchesQuery, byAvailable; cbn.
    rewrite andb_true_r. now destruct (Product.available p).
  - unfold listCategories. now rewrite length_map.
Qed.




Lemma fold_add_finite (products : list Product) (value : Product -> number) :
  Forall (fun p => exists x, value p = Fin x) products ->
  forall a, exists s,
    fold_left (fun sum product => add sum (value product)) products (Fin a)
    = Fin s.
Proof.
  induction 1 as [|p ps [x Hx] Hps IH]; intros a; cbn [fold_left].
  - now exists a.
  - rewrite Hx. cbn [add]. apply IH.
Qed.

Lemma div_by_length (s : Q) (n : nat) :
  n <> O -> div (Fin s) (of_Z (Z.of_nat n)) = Fin (s / inject_Z (Z.of_nat n)).
Proof.
  intros Hn. destruct n as [|k]; [congruence|]. reflexivity.
Qed.

Lemma dotted_is_not_NaN (sign a b : string) :
  sign = "" \/ sign = "-" -> sign ++ (a ++ "." ++ b) <> "NaN".
Proof.
  intros [-> | ->]; [|discriminate]. cbn [append].
  destruct a as [|c1 [|c2 [|c3 [|c4 a]]]]; cbn; discriminate.
Qed.

Lemma toFixed_finite_is_not_NaN (q : Q) (f : nat) :
  f <> O -> toFixed (Fin q) f <> Some "NaN".
Proof.
  intros Hf. unfold toFixed.
  destruct (Qle_bool (inject_Z (10 ^ 21)) (Qabs q)); [discriminate|].
  apply Nat.eqb_neq in Hf. rewrite Hf. intros H. injection H as H.
  revert H. apply dotted_is_not_NaN. destruct (Qle_bool 0 q); auto.
Qed.

(** X13. The averages are "NaN" only for an empty catalog or through
    values that are not finite: for a catalog that is not empty and whose
    prices are all finite [averagePrice] is not "NaN", and likewise
    [averageRating] for finite ratings. *)
Theorem getStats_averages_not_NaN (products : list Product)
    (categories : list string) :
  products <> [] ->
  (Forall (fun p => exists x, Product.price p = Fin x) products ->
   averagePrice (getStats products categories) <> Some "NaN")
  /\ (Forall (fun p => exists x, Product.rating p = Fin x) products ->
      averageRating (getStats products categories) <> Some "NaN").
Proof.
  intros Hne.
  assert (Hlen : List.length products <> O) by (destruct products; cbn; congruence).
  cbn [getStats averagePrice averageRating]. split; intros Hfin.
  - destruct (fold_add_finite products Product.price Hfin 0) as [s Hs].
    rewrite Hs, (div_by_length s _ Hlen).
    now apply toFixed_finite_is_not_NaN.
  - destruct (fold_add_finite products Product.rating Hfin 0) as [s Hs].
    rewrite Hs, (div_by_length s _ Hlen).
    now apply toFixed_finite_is_not_NaN.
Qed.

Lemma getStats_averages_not_NaN_witness :
  averagePrice (getStats specCatalog specCategories) <> Some "NaN".
Proof.
  apply (getStats_averages_not_NaN specCatalog specCategories).
  - discriminate.
  - repeat constructor; eexists; reflexivity.
Defined.

(** ** [getFeaturedProducts]: which products, and in which order *)

Section SortPermutation.
Context {A : Type}.
Variable comparefn : A -> A -> number.

Lemma insert_Permutation x l :
  Permutation (JsArray.insert comparefn x l) (x :: l).
Proof.
  induction l as [|y l IH]; cbn [JsArray.insert]; [reflexivity|].
  destruct (gtb _ _); [|reflexivity].
  rewrite IH. apply perm_swap.
Qed.

Lemma sort_Permutation l : Permutation (JsArray.sort comparefn l) l.
Proof.
  induction l as [|x l IH]; cbn; [reflexivity|].
  change (fold_right (JsArray.insert comparefn) [] l)
    with (JsArray.sort comparefn l).
  rewrite insert_Permutation. now constructor.
Qed.
End SortPermutation.

Lemma StronglySorted_app_inv {A} (R : A -> A -> Prop) (l1 l2 : list A) :
  StronglySorted R (l1 ++ l2)%list ->
  forall x y, In x l1 -> In y l2 -> R x y.
Proof.
  induction l1 as [|a l1 IH]; intros H x y Hx Hy; [contradiction|].
  cbn in H. inversion H as [|? ? Hs Ha]; subst.
  destruct Hx as [<- | Hx].
  - rewrite Forall_forall in Ha. apply Ha. apply in_or_app. now right.
  - now apply IH.
Qed.

(** X14. [getFeaturedProducts] returns the best of the products rated at
    least 4.5: its data together with the qualifying products it leaves out
    is a rearrangement of all qualifying products of the catalog, every
    returned product is rated at least as high as every one left out, the
    count is the smaller of 6 and the number of qualifying products, and
    nothing is left out when at most 6 qualify. *)
Theorem getFeaturedProducts_top (products : list Product) :
  let qualifying :=
    filter (fun p => geb (Product.rating p) featuredRating) products in
  let r := getFeaturedProducts products in
  exists rest,
    Permutation (data r ++ rest)%list qualifying
    /\ (forall x y, In x (data r) -> In y rest ->
          geb (Product.rating x) (Product.rating y) = true)
    /\ count r = Nat.min 6 (List.length qualifying)
    /\ ((List.length qualifying <= 6)%nat -> rest = []).
Proof.
  cbn zeta. unfold getFeaturedProducts, JsArray.slice0. cbn [data count].
  set (kept := filter _ products).
  set (sorted := JsArray.sort _ kept).
  assert (P : Permutation sorted kept) by apply sort_Permutation.
  exists (skipn 6 sorted). repeat split.
  - now rewrite firstn_skipn.
  - apply (StronglySorted_app_inv
             (fun a b => geb (Product.rating a) (Product.rating b) = true)).
    rewrite firstn_skipn.
    apply (sort_StronglySorted Product.rating).
    apply Forall_forall. intros p Hp. apply featured_orderable.
    apply filter_In in Hp. apply Hp.
  - rewrite length_firstn. now rewrite (Permutation_length P).
  - intros Hle. apply skipn_all2. now rewrite (Permutation_length P).
Qed.

Lemma getFeaturedProducts_top_witness :
  exists rest,
    Permutation (data (getFeaturedProducts specCatalog) ++ rest)%list
      [specProduct1]
    /\ rest = [].
Proof.
  destruct (getFeaturedProducts_top specCatalog) as (rest & P & _ & _ & E).
  exists rest. split; [exact P | apply E; cbn; lia].
Defined.

(** Products of one rating are not reordered by the sort. *)
Lemma insert_keeps_ties (v : number) (x : Product) (l : list Product) :
  filter (fun p => strictEq (Product.rating p) v)
    (JsArray.insert (fun a b => sub (Product.rating b) (Product.rating a)) x l)
  = filter (fun p => strictEq (Product.rating p) v) (x :: l).
Proof.
  induction l as [|y l IH]; cbn [JsArray.insert]; [reflexivity|].
  destruct (gtb _ _) eqn:G; [|reflexivity].
  cbn [filter] in *. rewrite IH.
  destruct (strictEq (Product.rating x) v) eqn:Ex;
    destruct (strictEq (Product.rating y) v) eqn:Ey; try reflexivity.
  exfalso. unfold JsArray.sortCompare in G.
  destruct (Product.rating x) as [| |a|], (Product.rating y) as [| |b|],
    v as [| |c|]; cbn in *; try discriminate.
  apply Qeq_bool_iff in Ex, Ey. apply negb_true_iff in G.
  assert (~ (b - a <= 0)%Q) by (rewrite <- Qle_bool_iff; congruence). lra.
Qed.

Lemma sort_keeps_ties (v : number) (l : list Product) :
  filter (fun p => strictEq (Product.rating p) v)
    (JsArray.sort (fun a b => sub (Product.rating b) (Product.rating a)) l)
  = filter (fun p => strictEq (Product.rating p) v) l.
Proof.
  induction l as [|x l IH]; [reflexivity|].
  cbn [JsArray.sort fold_right].
  change (fold_right
            (JsArray.insert
               (fun a b => sub (Product.rating b) (Product.rating a))) [] l)
    with (JsArray.sort
            (fun a b => sub (Product.rating b) (Product.rating a)) l).
  rewrite insert_keeps_ties. cbn [filter]. now rewrite IH.
Qed.

(** X15. Ties keep the order of the catalog: for every rating, the
    returned products of that rating are the first qualifying products of
    that rating in the catalog, in catalog order. *)
Theorem getFeaturedProducts_stable (products : list Product) (v : number) :
  exists rest,
    filter (fun p => strictEq (Product.rating p) v)
      (filter (fun p => geb (Product.rating p) featuredRating) products)
    = (filter (fun p => strictEq (Product.rating p) v)
         (data (getFeaturedProducts products)) ++ rest)%list.
Proof.
  unfold getFeaturedProducts, JsArray.slice0. cbn [data].
  set (kept := filter _ products).
  set (sorted := JsArray.sort _ kept).
  exists (filter (fun p => strictEq (Product.rating p) v) (skipn 6 sorted)).
  rewrite <- filter_app, firstn_skipn. symmetry. apply sort_keeps_ties.
Qed.

(** ** The route table: which handler a path reaches *)

Lemma featured_path_is_an_id_path (path : list string) :
  Router.matchPath
    [Router.Lit "api"; Router.Lit "products"; Router.Lit "featured"] path
  <> None ->
  Router.matchPath
    [Router.Lit "api"; Router.Lit "products"; Router.Param "id"] path
  <> None.
Proof.
  destruct path as [|a [|b [|c [|d rest]]]]; cbn [Router.matchPath]; auto.
  - destruct (String.eqb _ _); [|auto]. destruct (String.eqb _ _); [|auto].
    destruct c as [|ch c]; [vm_compute; auto | cbn [truthy]; discriminate].
  - destruct (String.eqb _ _); [|auto]. destruct (String.eqb _ _); [|auto].
    destruct (String.eqb _ _); intros H; now elim H.
Qed.

(** X16. No path reaches the handler of the featured listing: whatever
    the path, the route table dispatches it to another handler or to none.
    Every path of three segments [api], [products] and one more, that one
    being "featured" or anything else, goes to the handler of
    [getProductById] with the last segment as [id]. *)
Theorem featured_handler_unreachable :
  (forall path handler params,
     Router.dispatch path = Some (handler, params) ->
     handler <> Router.GetFeaturedProducts)
  /\ (forall x,
        x <> "" ->
        Router.dispatch ["api"; "products"; x]
        = Some (Router.GetProductById, [("id", x)])).
Proof.
  split.
  - intros path handler params.
    pose proof (featured_path_is_an_id_path path) as F.
    unfold Router.dispatch, Router.routes. cbn [Router.dispatchIn].
    repeat match goal with
           | |- context [match Router.matchPath ?p path with _ => _ end] =>
               destruct (Router.matchPath p path) eqn:?
           end;
      intros H; try discriminate H; injection H as <- _; try discriminate.
    exfalso. apply F; [discriminate | reflexivity].
  - intros x Hx. unfold Router.dispatch, Router.routes.
    cbn [Router.dispatchIn Router.matchPath].
    replace (String.eqb (toLowerCase "api") (toLowerCase "api")) with true
      by reflexivity.
    replace (String.eqb (toLowerCase "products") (toLowerCase "products"))
      with true by reflexivity.
    now rewrite (truthy_true x Hx).
Qed.

Lemma featured_handler_unreachable_witness :
  Router.dispatch ["API"; "Products"; "Featured"]
  = Some (Router.GetProductById, [("id", "Featured")]).
Proof.
  pose proof (proj1 featured_handler_unreachable
                ["API"; "Products"; "Featured"]) as H.
  destruct (Router.dispatch ["API"; "Products"; "Featured"])
    as [[handler params]|] eqn:E; [|discriminate E].
  specialize (H handler params eq_refl).
  vm_compute in E. injection E as <- <-. reflexivity.
Defined.

(** ** [database.js]: what is logged, and what the module exports *)

Section DatabaseFacts.
Variable Error : Type.
Variable showError : Error -> string.
Variable typeError : Error.
Variable dirname : string.
Variable pathJoin : string -> string -> string.
Variable readFileSync : string -> Eff.outcome Error string.
Variable JSONparse : string -> Eff.outcome Error Json.

Let load := loadData Error showError dirname pathJoin readFileSync JSONparse.
Let init :=
  Database.init Error showError typeError dirname pathJoin readFileSync
    JSONparse.
Let dataPath := pathJoin dirname "data.json".

Lemma loadData_cases :
  (exists raw doc,
     readFileSync dataPath = Eff.Return raw
     /\ JSONparse raw = Eff.Return doc
     /\ load = ([], Eff.Return doc))
  \/ (exists e,
        (readFileSync dataPath = Eff.Throw e
         \/ exists raw, readFileSync dataPath = Eff.Return raw
                        /\ JSONparse raw = Eff.Throw e)
        /\ load = (["Error al cargar datos: " ++ showError e],
                   Eff.Return emptyCatalog)).
Proof.
  subst load dataPath.
  destruct (readFileSync (pathJoin dirname "data.json")) as [raw | e] eqn:R.
  - destruct (JSONparse raw) as [doc | e] eqn:P.
    + left. exists raw, doc. repeat split; auto.
      now apply loadData_success with raw.
    + right. exists e. split; [right; now exists raw|].
      now apply loadData_parse_failure with raw.
  - right. exists e. split; [now left|]. now apply loadData_read_failure.
Qed.

Lemma init_after_failure log :
  load = (log, Eff.Return emptyCatalog) ->
  init = (log, Eff.Return
                 {| Database.products := Some (JArray []);
                    Database.categories := Some (JArray []);
                    Database.restaurantInfo := Some (JObject []) |}).
Proof.
  intros H. subst init load. unfold Database.init. rewrite H.
  cbn. now rewrite !app_nil_r.
Qed.

Lemma init_on_null log :
  load = (log, Eff.Return JNull) -> init = (log, Eff.Throw typeError).
Proof.
  intros H. subst init load. unfold Database.init. rewrite H.
  cbn. now rewrite !app_nil_r.
Qed.

Lemma init_on_other log doc :
  load = (log, Eff.Return doc) -> doc <> JNull ->
  exists exports, init = (log, Eff.Return exports).
Proof.
  intros H Hd. subst init load. unfold Database.init. rewrite H.
  destruct doc; try congruence; cbn; rewrite ?app_nil_r; eexists; reflexivity.
Qed.
End DatabaseFacts.

(** X17. [loadData] writes to the console exactly when it falls back to
    the empty catalog: nothing when the file is read and parsed, and the
    one line "Error al cargar datos: " followed by the error when reading
    or parsing throws. *)
Theorem loadData_console (Error : Type) (showError : Error -> string)
    (dirname : string) (pathJoin : string -> string -> string)
    (readFileSync : string -> Eff.outcome Error string)
    (JSONparse : string -> Eff.outcome Error Json) :
  (forall raw doc,
     readFileSync (pathJoin dirname "data.json") = Eff.Return raw ->
     JSONparse raw = Eff.Return doc ->
     fst (loadData Error showError dirname pathJoin readFileSync JSONparse)
     = [])
  /\ (forall e,
        readFileSync (pathJoin dirname "data.json") = Eff.Throw e
        \/ (exists raw,
              readFileSync (pathJoin dirname "data.json") = Eff.Return raw
              /\ JSONparse raw = Eff.Throw e) ->
        fst (loadData Error showError dirname pathJoin readFileSync JSONparse)
        = ["Error al cargar datos: " ++ showError e]).
Proof.
  split.
  - intros raw doc R P. now rewrite (loadData_success _ _ _ _ _ _ raw doc R P).
  - intros e [R | (raw & R & P)].
    + now rewrite (loadData_read_failure _ _ _ _ _ _ e R).
    + now rewrite (loadData_parse_failure _ _ _ _ _ _ raw e R P).
Qed.

Lemma loadData_console_witness :
  fst (loadData string (fun e => e) "/app" (fun a b => a ++ "/" ++ b)
         (fun _ => Eff.Throw "ENOENT: no such file or directory")
         (fun _ => Eff.Return JNull))
  = ["Error al cargar datos: ENOENT: no such file or directory"].
Proof.
  apply (proj2 (loadData_console string (fun e => e) "/app"
                  (fun a b => a ++ "/" ++ b)
                  (fun _ => Eff.Throw "ENOENT: no such file or directory")
                  (fun _ => Eff.Return JNull))
           "ENOENT: no such file or directory").
  left. reflexivity.
Defined.

(** X18. What the module exports.  After a failed load the three exports
    are the empty collections.  When the file parses to an object, each
    export is the object's field of that name, and is undefined when the
    object lacks it.  Reading the exports throws, so that the module does
    not load, exactly when the file is read and parses to [null]. *)
Theorem database_exports (Error : Type) (showError : Error -> string)
    (typeError : Error)
    (dirname : string) (pathJoin : string -> string -> string)
    (readFileSync : string -> Eff.outcome Error string)
    (JSONparse : string -> Eff.outcome Error Json) :
  let init :=
    Database.init Error showError typeError dirname pathJoin readFileSync
      JSONparse in
  (forall e,
     readFileSync (pathJoin dirname "data.json") = Eff.Throw e
     \/ (exists raw,
           readFileSync (pathJoin dirname "data.json") = Eff.Return raw
           /\ JSONparse raw = Eff.Throw e) ->
     snd init
     = Eff.Return {| Database.products := Some (JArray []);
                     Database.categories := Some (JArray []);
                     Database.restaurantInfo := Some (JObject []) |})
  /\ (forall raw fields,
        readFileSync (pathJoin dirname "data.json") = Eff.Return raw ->
        JSONparse raw = Eff.Return (JObject fields) ->
        snd init
        = Eff.Return
            {| Database.products := Database.lookup "products" fields;
               Database.categories := Database.lookup "categories" fields;
               Database.restaurantInfo :=
                 Database.lookup "restaurantInfo" fields |})
  /\ ((exists e, snd init = Eff.Throw e) <->
      (exists raw,
         readFileSync (pathJoin dirname "data.json") = Eff.Return raw
         /\ JSONparse raw = Eff.Return JNull)).
Proof.
  cbn zeta.
  pose proof (loadData_cases Error showError dirname pathJoin readFileSync
                JSONparse) as C.
  repeat split.
  - intros e He.
    assert (L : loadData Error showError dirname pathJoin readFileSync JSONparse
                = (["Error al cargar datos: " ++ showError e],
                   Eff.Return emptyCatalog)).
    { destruct He as [R | (raw & R & P)].
      - now apply loadData_read_failure.
      - now apply loadData_parse_failure with raw. }
    now rewrite (init_after_failure Error showError typeError dirname pathJoin
                   readFileSync JSONparse _ L).
  - intros raw fields R P.
    pose proof (loadData_success Error showError dirname pathJoin readFileSync
                  JSONparse raw _ R P) as L.
    unfold Database.init. rewrite L. reflexivity.
  - intros [e He].
    destruct C as [(raw & doc & R & P & L) | (e' & _ & L)].
    + exists raw. split; [assumption|].
      destruct doc; try assumption;
        (destruct (init_on_other Error showError typeError dirname pathJoin
                     readFileSync JSONparse _ _ L ltac:(discriminate))
           as [x Hx];
         rewrite Hx in He; discriminate He).
    + rewrite (init_after_failure Error showError typeError dirname pathJoin
                 readFileSync JSONparse _ L) in He.
      discriminate He.
  - intros (raw & R & P). exists typeError.
    pose proof (loadData_success Error showError dirname pathJoin readFileSync
                  JSONparse raw _ R P) as L.
    now rewrite (init_on_null Error showError typeError dirname pathJoin
                   readFileSync JSONparse _ L).
Qed.

Lemma database_exports_witness :
  exists e,
    snd (Database.init string (fun e => e)
           "TypeError: Cannot read properties of null" "/app"
           (fun a b => a ++ "/" ++ b)
           (fun _ => Eff.Return "null")
           (fun raw => if String.eqb raw "null" then Eff.Return JNull
                       else Eff.Throw "SyntaxError"))
    = Eff.Throw e.
Proof.
  apply (proj2 (proj2 (proj2
           (database_exports string (fun e => e)
              "TypeError: Cannot read properties of null" "/app"
              (fun a b => a ++ "/" ++ b)
              (fun _ => Eff.Return "null")
              (fun raw => if String.eqb raw "null" then Eff.Return JNull
                          else Eff.Throw "SyntaxError"))))).
  exists "null". split; reflexivity.
Defined.

(** ** The empty catalog *)

(** X19. On an empty catalog no handler fails: every listing is empty
    with count 0 whatever the query, every lookup by identifier or by
    category answers "not found" whatever the parameter, and every
    listed category has the count 0. *)
Theorem empty_catalog_answers (q : Query.t) (idParam category : string)
    (categories : list string) :
  listProducts [] q = {| success := true; count := 0; data := [] |}
  /\ getFeaturedProducts [] = {| success := true; count := 0; data := [] |}
  /\ getProductById [] idParam = ProductNotFound "Producto no encontrado"
  /\ listProductsByCategory [] category
     = CategoryNotFound "No se encontraron productos en esta categoría"
  /\ listCategories [] categories
     = map (fun c => {| cc_name := c; cc_count := 0 |}) categories.
Proof.
  repeat split. now rewrite listProducts_filter.
Qed.

(** ** [listProducts]: price bounds and letter case *)

(** X20. The price bounds are inclusive and keep finite prices only: with
    [minPrice] and [maxPrice] alone, both parsing to finite numbers, a
    product is returned exactly when it is in the catalog and its price is
    a finite number between the two bounds, the bounds included. *)
Theorem listProducts_price_range (products : list Product) (lo hi : string)
    (x y : Q) (p : Product) :
  parseFloat lo = Fin x ->
  parseFloat hi = Fin y ->
  (In p (data (listProducts products
                 (Query.mk None (Some lo) (Some hi) None None None))) <->
   In p products
   /\ exists z, Product.price p = Fin z /\ (x <= z)%Q /\ (z <= y)%Q).
Proof.
  intros Px Py. rewrite listProducts_filter; cbn [data].
  rewrite filter_In. unfold matchesQuery; cbn.
  assert (Tlo : truthy lo = true) by (destruct lo; [discriminate Px | reflexivity]).
  assert (Thi : truthy hi = true) by (destruct hi; [discriminate Py | reflexivity]).
  rewrite Tlo, Thi, !andb_true_r. unfold byMinPrice, byMaxPrice, geb.
  rewrite Px, Py, andb_true_iff.
  destruct (Product.price p) as [| |z|]; cbn [leb].
  - split; [intuition discriminate | intros (_ & z & E & _); discriminate E].
  - split; [intuition discriminate | intros (_ & z & E & _); discriminate E].
  - rewrite !Qle_bool_iff. split.
    + intros (Hin & H1 & H2). split; [assumption|]. now exists z.
    + intros (Hin & w & E & H1 & H2). injection E as <-. auto.
  - split; [intuition discriminate | intros (_ & z & E & _); discriminate E].
Qed.

Lemma listProducts_price_range_witness :
  In specProduct1
     (data (listProducts specCatalog
              (Query.mk None (Some "10") (Some "20.00") None None None))).
Proof.
  apply (listProducts_price_range specCatalog "10" "20.00"
           (inject_Z 10 * Qpower (inject_Z 10) 0)
           (inject_Z 2000 * Qpower (inject_Z 10) (-2))
           specProduct1 eq_refl eq_refl).
  split; [now left|]. exists 10%Q. repeat split; vm_compute; discriminate.
Defined.

Lemma toLowerCase_truthy (s t : string) :
  toLowerCase s = toLowerCase t -> truthy s = truthy t.
Proof. destruct s, t; cbn; congruence || discriminate. Qed.

(** X21. [listProducts] reads [category] and [search] up to letter case:
    two queries that differ only in the letter case of these two values
    get the same response. *)
Theorem listProducts_case_insensitive (products : list Product)
    (c1 c2 s1 s2 : string) (mn mx av sp : option string) :
  toLowerCase c1 = toLowerCase c2 ->
  toLowerCase s1 = toLowerCase s2 ->
  listProducts products (Query.mk (Some c1) mn mx av sp (Some s1))
  = listProducts products (Query.mk (Some c2) mn mx av sp (Some s2)).
Proof.
  intros Hc Hs. rewrite !listProducts_filter.
  assert (E : forall p,
             matchesQuery (Query.mk (Some c1) mn mx av sp (Some s1)) p
             = matchesQuery (Query.mk (Some c2) mn mx av sp (Some s2)) p).
  { intros p. unfold matchesQuery, asksIfTruthy; cbn [Query.category
      Query.minPrice Query.maxPrice Query.available Query.spicyLevel
      Query.search].
    rewrite (toLowerCase_truthy c1 c2 Hc), (toLowerCase_truthy s1 s2 Hs).
    unfold byCategory, bySearch. now rewrite Hc, Hs. }
  now rewrite (filter_ext _ _ E).
Qed.

Lemma listProducts_case_insensitive_witness :
  listProducts specCatalog
    (Query.mk (Some "VEGETARIAN") None None None None (Some ""))
  = listProducts specCatalog
      (Query.mk (Some "vegetarian") None None None None (Some "")).
Proof.
  apply (listProducts_case_insensitive specCatalog "VEGETARIAN" "vegetarian"
           "" ""); reflexivity.
Defined.

(** ** [getProductById]: what follows the number is ignored *)

Lemma append_assoc' (a b c : string) : (a ++ b) ++ c = a ++ (b ++ c).
Proof. induction a as [|x a IH]; cbn; [reflexivity | now rewrite IH]. Qed.

Lemma decimal_aux_app (fuel : nat) :
  forall n acc, decimal_aux fuel n acc = decimal_aux fuel n "" ++ acc.
Proof.
  induction fuel as [|fuel IH]; intros n acc; cbn [decimal_aux]; [reflexivity|].
  destruct (n <? 10); [reflexivity|].
  rewrite (IH (n / 10) (String _ acc)), (IH (n / 10) (String _ "")).
  now rewrite append_assoc'.
Qed.

Lemma digits_decimal_suffix (n : Z) (suffix : string) :
  0 <= n -> stopsNumber suffix ->
  exists k : nat, digits 10 (decimal n ++ suffix) 0 0 = (S k, n, suffix).
Proof.
  intros Hn Hs. unfold decimal. rewrite <- decimal_aux_app.
  assert (B : 0 <= n < 2 ^ Z.of_nat (S (Z.to_nat (Z.log2 n)))).
  { split; [assumption|].
    pose proof (Z.log2_nonneg n).
    replace (Z.of_nat (S (Z.to_nat (Z.log2 n)))) with (Z.succ (Z.log2 n))
      by lia.
    destruct (Z.eq_dec n 0) as [-> | Hz]; [reflexivity|].
    apply Z.log2_spec. lia. }
  destruct (digits_decimal_aux _ n suffix O 0 B) as [k Hk].
  exists k. rewrite Hk, Z.mul_0_l, Z.add_0_l.
  destruct suffix as [|c r]; [reflexivity|].
  cbn [digits]. destruct Hs as (Hd & _). now rewrite Hd.
Qed.

Lemma parseInt_decimal_suffix (n : Z) (suffix : string) :
  0 <= n -> stopsNumber suffix -> parseInt (decimal n ++ suffix) = Some n.
Proof.
  intros Hn Hs. destruct (digits_decimal_suffix n suffix Hn Hs) as [k Hk].
  destruct (decimal n ++ suffix) as [|c r] eqn:Es; [discriminate Hk|].
  assert (Hc : digit_of 10 c <> None).
  { intros E. cbn [digits] in Hk. rewrite E in Hk. discriminate Hk. }
  destruct (digit_is_plain c Hc) as (Hsp & Hm & Hp).
  unfold parseInt. cbn [trimStart]. rewrite Hsp.
  cbn [sign_of]. rewrite Hm, Hp.
  assert (Hx : startsWith (String c r) "0x" || startsWith (String c r) "0X"
               = false).
  { apply orb_false_iff. split;
      (destruct (startsWith (String c r) _) eqn:E; [|reflexivity];
       apply startsWith_spec in E; destruct E as [suf E];
       rewrite E in Hk; cbn in Hk; injection Hk as _ _ Hk;
       rewrite <- Hk in Hs; cbn in Hs; destruct Hs as (_ & H1 & H2);
       discriminate). }
  rewrite Hx, Hk. f_equal. lia.
Qed.

Lemma parseInt_decimalString_suffix (z : Z) (suffix : string) :
  stopsNumber suffix -> parseInt (decimalString z ++ suffix) = Some z.
Proof.
  intros Hs. unfold decimalString. destruct (z <? 0) eqn:E.
  - apply Z.ltb_lt in E.
    assert (Hn : 0 <= - z) by lia.
    destruct (digits_decimal_suffix (- z) suffix Hn Hs) as [k Hk].
    pose proof (parseInt_decimal_suffix (- z) suffix Hn Hs) as P.
    cbn [append].
    destruct (decimal (- z) ++ suffix) as [|c r] eqn:Es; [discriminate Hk|].
    assert (Hc : digit_of 10 c <> None).
    { intros F. cbn [digits] in Hk. rewrite F in Hk. discriminate Hk. }
    destruct (digit_is_plain c Hc) as (Hsp & Hm & Hp).
    unfold parseInt in *.
    replace (trimStart (String c r)) with (String c r) in P
      by (cbn [trimStart]; now rewrite Hsp).
    replace (sign_of (String c r)) with (1, String c r) in P
      by (cbn [sign_of]; now rewrite Hm, Hp).
    replace (trimStart (String "-" (String c r)))
      with (String "-" (String c r)) by reflexivity.
    replace (sign_of (String "-" (String c r))) with (-1, String c r)
      by reflexivity.
    cbv beta iota in *.
    destruct (startsWith (String c r) "0x" || startsWith (String c r) "0X").
    + destruct (digits 16 (drop2 (String c r)) 0 0) as [[[|l] v] rest];
        [discriminate P|]. injection P as P. f_equal. destruct v; lia.
    + destruct (digits 10 (String c r) 0 0) as [[[|l] v] rest];
        [discriminate P|]. injection P as P. f_equal. destruct v; lia.
  - apply parseInt_decimal_suffix; [|assumption]. apply Z.ltb_ge in E. lia.
Qed.

(** X22. [getProductById] reads the leading integer of its parameter and
    ignores what follows: a decimal identifier followed by anything that
    does not start with a digit (nor with the [x] of a hexadecimal prefix)
    gets the same answer as the identifier alone. *)
Theorem getProductById_ignores_suffix (products : list Product) (z : Z)
    (suffix : string) :
  stopsNumber suffix ->
  getProductById products (decimalString z ++ suffix)
  = getProductById products (decimalString z).
Proof.
  intros Hs. unfold getProductById.
  now rewrite (parseInt_decimalString_suffix z suffix Hs),
              parseInt_decimalString.
Qed.

Lemma getProductById_ignores_suffix_witness :
  getProductById specCatalog "2abc" = ProductFound specProduct2.
Proof.
  change "2abc" with (decimalString 2 ++ "abc").
  rewrite (getProductById_ignores_suffix specCatalog 2 "abc");
    [reflexivity | repeat split].
Defined.
